(** * InterviewSession: turn-taking controller of the interview chat component

    Shallow embedding of [src/app/components/InterviewSession.tsx].

    The component is a React function component.  Three features of its
    execution model are made explicit here:

    - every handler is a closure over the values of the render that created
      it; a handler therefore takes the render snapshot [r] as an argument
      and reads state variables from [r], while [setX] calls act on the
      live store;
    - an [async] handler runs until its first [await] and is resumed later
      by the event loop; handlers are terms of [Proc], suspended parts wait
      in the world's [pending] list;
    - everything that leaves the component ([fetch], [alert], [onEnd],
      speech output) is appended to a log held in the store.

    Not modelled: the interview timer, the speech rate, the recorded audio
    chunks, styling.  The prompt text built at lines 558-577 is a section
    variable, no property below depends on its contents. *)

From Stdlib Require Import NArith Ascii String DecimalString.
From stdpp Require Import base list.

(** ** JavaScript strings *)

(** A string is its sequence of UTF-16 code units. *)
Definition jsstring := list N.

Definition js (s : string) : jsstring :=
  map N_of_ascii (list_ascii_of_string s).

(** A string is truthy when it is not empty. *)
Definition truthy (s : jsstring) : bool :=
  match s with [] => false | _ :: _ => true end.

(** [Number.prototype.toString] on a non-negative integer. *)
Definition toString (n : N) : jsstring :=
  js (NilZero.string_of_uint (N.to_uint n)).

(** WhiteSpace and LineTerminator code points, the ones
    [String.prototype.trim] strips. *)
Definition isWhiteSpace (c : N) : bool :=
  ((9 <=? c) && (c <=? 13) || (c =? 32) || (c =? 160) || (c =? 5760)
   || (8192 <=? c) && (c <=? 8202) || (c =? 8232) || (c =? 8233)
   || (c =? 8239) || (c =? 8287) || (c =? 12288) || (c =? 65279))%N.

Fixpoint trimStart (s : jsstring) : jsstring :=
  match s with
  | [] => []
  | c :: t => if isWhiteSpace c then trimStart t else s
  end.

Definition trimEnd (s : jsstring) : jsstring := rev (trimStart (rev s)).

Definition trim (s : jsstring) : jsstring := trimEnd (trimStart s).

(** [Array.prototype.slice(-n)]: the last [n] elements, all of them when
    there are fewer. *)
Definition slice_last {A} (n : nat) (l : list A) : list A :=
  drop (length l - n) l.

(** ** Data *)

Inductive Role := user | assistant.

Record Message := {
  id : jsstring;
  content : jsstring;
  role : Role;
  timestamp : N
}.

(** The [{role, content}] objects handed to the AI helpers. *)
Record AiMessage := { ai_role : Role; ai_content : jsstring }.

Definition toAiMessage (msg : Message) : AiMessage :=
  {| ai_role := role msg; ai_content := content msg |}.

Record Feedback := {
  summary : jsstring;
  strengths : list jsstring;
  improvements : list jsstring
}.

(** The fields of [details] the component reads; a missing field and an
    empty one are both falsy. *)
Record Details := {
  d_role : jsstring;
  d_company : jsstring;
  d_experience : jsstring;
  d_specificSkills : jsstring
}.

(** The [onEnd] callback is the caller's: all that matters of it here is
    whether a call returns or throws, which it may decide from the feedback
    objects it was called with before and from the one it is called with. *)
Record Props := {
  topic : jsstring;
  sessionType : jsstring;
  details : Details;
  notes : jsstring;
  onEnd_throws : list Feedback -> Feedback -> bool
}.

(** The record kept under the key ['interviewSession'] of [sessionStorage]. *)
Record SessionData := {
  sd_id : jsstring;
  sd_topic : jsstring;
  sd_type : jsstring;
  sd_startTime : N
}.

(** ** React state and render snapshots *)

(** [audioRecorder] holds a reference into the heap of recorder objects. *)
Record ReactState := {
  messages : list Message;
  isListening : bool;
  userInput : jsstring;
  isLoading : bool;
  isThinking : bool;
  isSpeaking : bool;
  isConnected : bool;
  transcript : jsstring;
  audioRecorder : option nat;
  isEndingInterview : bool;
  liveTranscript : jsstring
}.

(** What a closure sees: the state values of the render that created it. *)
Definition Render := ReactState.

(** ** Calls to the outside, and what they answer *)

Inductive Call :=
| getUserMedia
| forceVoiceInit
| transcribeAudio
| fetch_create_interview (topic_ type_ notes_ : jsstring)
| fetch_save_message (interviewId content_ : jsstring) (role_ : Role)
| fetch_save_feedback (interviewId : jsstring) (feedback : Feedback)
| fetch_ai (messages_ : list Message) (interviewType topic_ notes_ : jsstring)
           (details_ : Details)
| generateInterviewResponse (aiMessages : list AiMessage)
                            (sessionType_ topic_ : jsstring)
| generateInterviewFeedback (aiMessages : list AiMessage)
                            (sessionType_ topic_ : jsstring).

(** The value a call resolves to.  [fetch_create_interview] answers
    [Some i] when the response is ok and carries [data.id = i];
    [fetch_ai] answers [Some t] when the response is ok with
    [data.response = t]. *)
Definition answer (c : Call) : Type :=
  match c with
  | getUserMedia => unit
  | forceVoiceInit => bool
  | transcribeAudio => jsstring
  | fetch_create_interview _ _ _ => option jsstring
  | fetch_save_message _ _ _ => unit
  | fetch_save_feedback _ _ => unit
  | fetch_ai _ _ _ _ _ => option jsstring
  | generateInterviewResponse _ _ _ => jsstring
  | generateInterviewFeedback _ _ _ => Feedback
  end.

(** How the environment settles a call: [None] is a rejected promise. *)
Definition Oracle := forall c : Call, option (answer c).

Inductive Effect :=
| request (c : Call)
| alert (msg : jsstring)
| onEnd (feedback : Feedback)
| speak (text : jsstring)
| speechCancel
| recorderStart (ref : nat)
| recorderStop (ref : nat)
| recognitionStart
| recognitionStop.

(** ** Browser objects and refs *)

(** A [MediaRecorder]: its [state] and the closure registered for its
    ['stop'] event, identified by the render that registered it. *)
Record MediaRecorder := {
  recording : bool;
  onstop : Render
}.

Record Env := {
  now : N;                               (* Date.now() *)
  mediaDevices : bool;                   (* navigator.mediaDevices *)
  recorders : list MediaRecorder;
  recognitionRef : bool;                 (* recognitionRef.current *)
  speaking : bool;                       (* window.speechSynthesis.speaking *)
  interviewSession : option SessionData; (* sessionStorage *)
  log : list Effect
}.

Record Store := { react : ReactState; env : Env }.

(** ** State setters *)

Definition on_react (f : ReactState -> ReactState) (s : Store) : Store :=
  {| react := f (react s); env := env s |}.

Definition on_env (f : Env -> Env) (s : Store) : Store :=
  {| react := react s; env := f (env s) |}.

Definition setMessages (f : list Message -> list Message) : Store -> Store :=
  on_react (fun r =>
    {| messages := f (messages r); isListening := isListening r;
       userInput := userInput r; isLoading := isLoading r;
       isThinking := isThinking r; isSpeaking := isSpeaking r;
       isConnected := isConnected r; transcript := transcript r;
       audioRecorder := audioRecorder r;
       isEndingInterview := isEndingInterview r;
       liveTranscript := liveTranscript r |}).

Definition setIsListening (b : bool) : Store -> Store :=
  on_react (fun r =>
    {| messages := messages r; isListening := b;
       userInput := userInput r; isLoading := isLoading r;
       isThinking := isThinking r; isSpeaking := isSpeaking r;
       isConnected := isConnected r; transcript := transcript r;
       audioRecorder := audioRecorder r;
       isEndingInterview := isEndingInterview r;
       liveTranscript := liveTranscript r |}).

Definition setUserInput (v : jsstring) : Store -> Store :=
  on_react (fun r =>
    {| messages := messages r; isListening := isListening r;
       userInput := v; isLoading := isLoading r;
       isThinking := isThinking r; isSpeaking := isSpeaking r;
       isConnected := isConnected r; transcript := transcript r;
       audioRecorder := audioRecorder r;
       isEndingInterview := isEndingInterview r;
       liveTranscript := liveTranscript r |}).

Definition setIsLoading (b : bool) : Store -> Store :=
  on_react (fun r =>
    {| messages := messages r; isListening := isListening r;
       userInput := userInput r; isLoading := b;
       isThinking := isThinking r; isSpeaking := isSpeaking r;
       isConnected := isConnected r; transcript := transcript r;
       audioRecorder := audioRecorder r;
       isEndingInterview := isEndingInterview r;
       liveTranscript := liveTranscript r |}).

Definition setIsThinking (b : bool) : Store -> Store :=
  on_react (fun r =>
    {| messages := messages r; isListening := isListening r;
       userInput := userInput r; isLoading := isLoading r;
       isThinking := b; isSpeaking := isSpeaking r;
       isConnected := isConnected r; transcript := transcript r;
       audioRecorder := audioRecorder r;
       isEndingInterview := isEndingInterview r;
       liveTranscript := liveTranscript r |}).

Definition setIsSpeaking (b : bool) : Store -> Store :=
  on_react (fun r =>
    {| messages := messages r; isListening := isListening r;
       userInput := userInput r; isLoading := isLoading r;
       isThinking := isThinking r; isSpeaking := b;
       isConnected := isConnected r; transcript := transcript r;
       audioRecorder := audioRecorder r;
       isEndingInterview := isEndingInterview r;
       liveTranscript := liveTranscript r |}).

Definition setIsConnected (b : bool) : Store -> Store :=
  on_react (fun r =>
    {| messages := messages r; isListening := isListening r;
       userInput := userInput r; isLoading := isLoading r;
       isThinking := isThinking r; isSpeaking := isSpeaking r;
       isConnected := b; transcript := transcript r;
       audioRecorder := audioRecorder r;
       isEndingInterview := isEndingInterview r;
       liveTranscript := liveTranscript r |}).

Definition setTranscript (v : jsstring) : Store -> Store :=
  on_react (fun r =>
    {| messages := messages r; isListening := isListening r;
       userInput := userInput r; isLoading := isLoading r;
       isThinking := isThinking r; isSpeaking := isSpeaking r;
       isConnected := isConnected r; transcript := v;
       audioRecorder := audioRecorder r;
       isEndingInterview := isEndingInterview r;
       liveTranscript := liveTranscript r |}).

Definition setAudioRecorder (v : option nat) : Store -> Store :=
  on_react (fun r =>
    {| messages := messages r; isListening := isListening r;
       userInput := userInput r; isLoading := isLoading r;
       isThinking := isThinking r; isSpeaking := isSpeaking r;
       isConnected := isConnected r; transcript := transcript r;
       audioRecorder := v;
       isEndingInterview := isEndingInterview r;
       liveTranscript := liveTranscript r |}).

Definition setIsEndingInterview (b : bool) : Store -> Store :=
  on_react (fun r =>
    {| messages := messages r; isListening := isListening r;
       userInput := userInput r; isLoading := isLoading r;
       isThinking := isThinking r; isSpeaking := isSpeaking r;
       isConnected := isConnected r; transcript := transcript r;
       audioRecorder := audioRecorder r;
       isEndingInterview := b;
       liveTranscript := liveTranscript r |}).

Definition setLiveTranscript (v : jsstring) : Store -> Store :=
  on_react (fun r =>
    {| messages := messages r; isListening := isListening r;
       userInput := userInput r; isLoading := isLoading r;
       isThinking := isThinking r; isSpeaking := isSpeaking r;
       isConnected := isConnected r; transcript := transcript r;
       audioRecorder := audioRecorder r;
       isEndingInterview := isEndingInterview r;
       liveTranscript := v |}).

Definition set_now (t : N) : Store -> Store :=
  on_env (fun e =>
    {| now := t; mediaDevices := mediaDevices e; recorders := recorders e;
       recognitionRef := recognitionRef e; speaking := speaking e;
       interviewSession := interviewSession e; log := log e |}).

Definition set_recorders (f : list MediaRecorder -> list MediaRecorder)
  : Store -> Store :=
  on_env (fun e =>
    {| now := now e; mediaDevices := mediaDevices e;
       recorders := f (recorders e);
       recognitionRef := recognitionRef e; speaking := speaking e;
       interviewSession := interviewSession e; log := log e |}).

Definition set_speaking (b : bool) : Store -> Store :=
  on_env (fun e =>
    {| now := now e; mediaDevices := mediaDevices e; recorders := recorders e;
       recognitionRef := recognitionRef e; speaking := b;
       interviewSession := interviewSession e; log := log e |}).

(** [sessionStorage.setItem('interviewSession', JSON.stringify(d))]. *)
Definition sessionStorage_setItem (d : SessionData) : Store -> Store :=
  on_env (fun e =>
    {| now := now e; mediaDevices := mediaDevices e; recorders := recorders e;
       recognitionRef := recognitionRef e; speaking := speaking e;
       interviewSession := Some d; log := log e |}).

(** Append one observable effect to the log. *)
Definition emit (x : Effect) : Store -> Store :=
  on_env (fun e =>
    {| now := now e; mediaDevices := mediaDevices e; recorders := recorders e;
       recognitionRef := recognitionRef e; speaking := speaking e;
       interviewSession := interviewSession e; log := log e ++ [x] |}).

(** Set [recorder.state] of the recorder behind a reference. *)
Definition set_recording (ref : nat) (b : bool) : Store -> Store :=
  set_recorders (fun h =>
    match h !! ref with
    | Some m => <[ref := {| recording := b; onstop := onstop m |}]> h
    | None => h
    end).

(** ** Asynchronous handlers

    [Await c k] logs the request [c] and suspends; the continuation [k]
    receives the settled value, [None] for a rejected promise.
    [Later cb k] is [setTimeout(cb, _)] or a browser event queued for later:
    [cb] is parked, [k] goes on at once. *)
Inductive Proc : Type :=
| Done : Proc
| Sync : (Store -> Store) -> Proc -> Proc
| Read : (Store -> Proc) -> Proc
| Await : forall c : Call, (option (answer c) -> Proc) -> Proc
| Later : Proc -> Proc -> Proc.

Declare Scope proc_scope.
Delimit Scope proc_scope with proc.
Bind Scope proc_scope with Proc.
Notation "f ;; k" := (Sync f k%proc)
  (at level 100, k at level 200, right associativity) : proc_scope.
Open Scope proc_scope.

Inductive Pending :=
| PAwait : forall c : Call, (option (answer c) -> Proc) -> Pending
| PTimer : Proc -> Pending.

(** Run a handler up to its first suspension: the new store and the parts
    left for the event loop, in the order they were created. *)
Fixpoint run (p : Proc) (s : Store) : Store * list Pending :=
  match p with
  | Done => (s, [])
  | Sync f k => run k (f s)
  | Read k => run (k s) s
  | Await c k => (emit (request c) s, [PAwait c k])
  | Later cb k => let '(s', ps) := run k s in (s', PTimer cb :: ps)
  end.

(** Resume a suspended part with the environment's answer. *)
Definition resume (x : Pending) (o : Oracle) : Proc :=
  match x with
  | PAwait c k => k (o c)
  | PTimer cb => cb
  end.

(** ** The component *)

Definition cat (parts : list jsstring) : jsstring := concat parts.

(** [a || b] on strings. *)
Definition or_else (a b : jsstring) : jsstring := if truthy a then a else b.

(** [sessionData?.id], when truthy. *)
Definition session_id (s : Store) : option jsstring :=
  match interviewSession (env s) with
  | Some d => if truthy (sd_id d) then Some (sd_id d) else None
  | None => None
  end.

(** The feedback objects [onEnd] has been called with so far. *)
Definition onEnd_args (l : list Effect) : list Feedback :=
  omap (fun x => match x with onEnd feedback => Some feedback | _ => None end) l.

(** [window.speechSynthesis.cancel()]. *)
Definition cancelSpeech (k : Proc) : Proc :=
  emit speechCancel ;; set_speaking false ;; k.

(** [window.speechSynthesis.speak(utterance)]. *)
Definition speakUtterance (text : jsstring) (k : Proc) : Proc :=
  emit (speak text) ;; set_speaking true ;; k.

Section Component.

Variable P : Props.

(** The value of [contextEnhancedSessionType] (lines 558-577), a function of
    the props alone. *)
Variable contextEnhancedSessionType : jsstring.

Definition introMessage : jsstring :=
  if bool_decide (sessionType P = js "topic") then
    cat [js "Welcome to your lecture on "; topic P;
         js ". I'll start with an overview and then we'll dive into the details. Feel free to ask questions at any point."]
  else if bool_decide (sessionType P = js "qa") then
    cat [js "Welcome to your Q&A session on "; topic P;
         js ". I'll be testing your knowledge with a series of questions. Let's see how much you know about ";
         topic P; js "!"]
  else if bool_decide (sessionType P = js "language") then
    cat [js "Bonjour! Welcome to your language practice session. Today we'll be practicing ";
         topic P;
         js ". I'll speak in the language we're practicing, and you can respond to improve your skills."]
  else if bool_decide (sessionType P = js "mock") then
    let role := or_else (d_role (details P)) (topic P) in
    let company := or_else (d_company (details P)) (js "a company") in
    let experience := or_else (d_experience (details P)) (js "this role") in
    let specificSkills := d_specificSkills (details P) in
    cat [js "Welcome to your mock interview for the "; role;
         js " position at "; company;
         js ". I'll be your interviewer today. I'll ask you questions related to ";
         topic P; js " and your experience with "; experience; js ".";
         if truthy specificSkills
         then cat [js " I'll focus particularly on your skills with ";
                   specificSkills; js "."]
         else [];
         js " Let's begin!"]
  else
    cat [js "Great! Let's start our interview about "; topic P;
         js ". I'll ask you some questions about "; topic P;
         js " and you can respond either by speaking or typing your answers."].

(** The callback of the 800 ms timer in [startInterview] (lines 287-329). *)
Definition speakIntroduction : Proc :=
  Await forceVoiceInit (fun o =>
    match o with
    | Some _ =>
        setIsSpeaking true ;;
        speakUtterance introMessage Done
    | None =>
        setIsSpeaking false ;; Done
    end).

(** [startInterview] reads props only. *)
Definition startInterview : Proc :=
  setIsLoading true ;;
  Read (fun s =>
    let sessionData :=
      {| sd_id := toString (now (env s)); sd_topic := topic P;
         sd_type := sessionType P; sd_startTime := now (env s) |} in
    let introMsg :=
      {| id := toString (now (env s)); content := introMessage;
         role := assistant; timestamp := now (env s) |} in
    sessionStorage_setItem sessionData ;;
    setMessages (fun prev => prev ++ [introMsg]) ;;
    Await (fetch_create_interview (topic P) (sessionType P) (notes P))
      (fun o =>
         let rest := Later speakIntroduction (setIsLoading false ;; Done) in
         match o with
         | Some (Some data_id) =>
             if truthy data_id then
               sessionStorage_setItem
                 {| sd_id := data_id; sd_topic := sd_topic sessionData;
                    sd_type := sd_type sessionData;
                    sd_startTime := sd_startTime sessionData |} ;;
               rest
             else rest
         | _ => rest
         end)).

(** The [catch] branch of [setupAudioRecording] (lines 194-201). *)
Definition microphoneUnavailable : Proc :=
  emit (alert (js "Could not access microphone. Voice input will not be available.")) ;;
  setIsConnected true ;;
  Later startInterview Done.

Definition playAudioResponse (r : Render) (text : jsstring) : Proc :=
  if negb (truthy text) || negb (isConnected r) then Done
  else
    setIsSpeaking true ;;
    Await forceVoiceInit (fun o =>
      match o with
      | Some _ => cancelSpeech (speakUtterance text Done)
      | None => setIsSpeaking false ;; Done
      end).

(** The text [handleSendMessage] picks (lines 489-498). *)
Definition textToSend (r : Render) (transcribedText : option jsstring)
  : jsstring :=
  if truthy (liveTranscript r) then liveTranscript r
  else match transcribedText with
       | Some t => if truthy t then t else userInput r
       | None => userInput r
       end.

Definition errorMessage (t : N) : Message :=
  {| id := toString t;
     content := js "I'm sorry, I'm having trouble responding right now. Let's continue our conversation.";
     role := assistant; timestamp := t |}.

(** [fetch('/api/save-message', ...)], not awaited, when the stored session
    has an id (lines 518-539 and 597-618). *)
Definition saveMessage (sessionData_id : option jsstring)
  (content_ : jsstring) (role_ : Role) : Store -> Store :=
  match sessionData_id with
  | Some i => emit (request (fetch_save_message i content_ role_))
  | None => fun s => s
  end.

(** The callback of the 500 ms timer (lines 625-634). *)
Definition narrate (r : Render) (aiResponseText : jsstring) : Proc :=
  Read (fun s =>
    if speaking (env s)
    then cancelSpeech (playAudioResponse r aiResponseText)
    else playAudioResponse r aiResponseText).

(** Lines 586-634: the reply has arrived. *)
Definition replyArrived (r : Render) (sessionData_id : option jsstring)
  (aiResponseText : jsstring) : Proc :=
  Read (fun s =>
    let aiResponse :=
      {| id := toString (now (env s)); content := aiResponseText;
         role := assistant; timestamp := now (env s) |} in
    setMessages (fun prev => prev ++ [aiResponse]) ;;
    saveMessage sessionData_id aiResponseText assistant ;;
    setIsThinking false ;;
    setIsLoading false ;;
    Later (narrate r aiResponseText) Done).

(** Lines 635-649: the [catch] branch. *)
Definition replyFailed : Proc :=
  Read (fun s =>
    setMessages (fun prev => prev ++ [errorMessage (now (env s))]) ;;
    setIsThinking false ;;
    setIsLoading false ;;
    Done).

Definition afterReply (r : Render) (sessionData_id : option jsstring)
  (o : option jsstring) : Proc :=
  match o with
  | Some aiResponseText => replyArrived r sessionData_id aiResponseText
  | None => replyFailed
  end.

(** The history handed to [generateInterviewResponse] (lines 546-555). *)
Definition aiMessagesFor (r : Render) (newContent : jsstring)
  : list AiMessage :=
  map toAiMessage (messages r)
  ++ [{| ai_role := user; ai_content := newContent |}].

Definition handleSendMessage (r : Render) (transcribedText : option jsstring)
  : Proc :=
  let text := textToSend r transcribedText in
  if negb (truthy (trim text)) then Done
  else
    Read (fun s =>
      let newUserMessage :=
        {| id := toString (now (env s)); content := trim text;
           role := user; timestamp := now (env s) |} in
      setMessages (fun prev => prev ++ [newUserMessage]) ;;
      setUserInput [] ;;
      setTranscript [] ;;
      setLiveTranscript [] ;;
      setIsLoading true ;;
      Read (fun s1 =>
        let sessionData_id := session_id s1 in
        saveMessage sessionData_id (content newUserMessage) user ;;
        setIsThinking true ;;
        Await (generateInterviewResponse
                 (aiMessagesFor r (content newUserMessage))
                 contextEnhancedSessionType (topic P))
          (afterReply r sessionData_id))).

(** Lines 352-366: what [handleRecordingStop] does once [transcribeAudio]
    has settled. *)
Definition afterTranscription (r : Render) (o : option jsstring) : Proc :=
  match o with
  | Some transcription =>
      setIsLoading false ;;
      if truthy transcription then
        setUserInput transcription ;;
        setTranscript transcription ;;
        handleSendMessage r (Some transcription)
      else
        setUserInput [] ;; Done
  | None =>
      emit (alert (js "There was an error processing your speech. Please try again or use text input.")) ;;
      setIsLoading false ;;
      Done
  end.

Definition handleRecordingStop (r : Render) : Proc :=
  setIsLoading true ;;
  Await transcribeAudio (afterTranscription r).

Definition setupAudioRecording (r : Render) : Proc :=
  Read (fun s =>
    if mediaDevices (env s) then
      Await getUserMedia (fun o =>
        match o with
        | Some _ =>
            Read (fun s1 =>
              let ref := length (recorders (env s1)) in
              set_recorders (fun h => h ++ [{| recording := false; onstop := r |}]) ;;
              setAudioRecorder (Some ref) ;;
              setIsConnected true ;;
              Later startInterview Done)
        | None => microphoneUnavailable
        end)
    else microphoneUnavailable).

(** [audioRecorder.stop()] on a recorder that is recording: its ['stop']
    listener is queued. *)
Definition stopRecorder (ref : nat) (k : Proc) : Proc :=
  Read (fun s =>
    match recorders (env s) !! ref with
    | Some m =>
        if recording m then
          emit (recorderStop ref) ;;
          set_recording ref false ;;
          Later (handleRecordingStop (onstop m)) k
        else k
    | None => k
    end).

Definition startListening (r : Render) : Proc :=
  match audioRecorder r with
  | None =>
      emit (alert (js "Microphone is not available. Please try again or use text input.")) ;;
      Done
  | Some ref =>
      if isSpeaking r then Done
      else
        setIsListening true ;;
        setTranscript [] ;;
        setLiveTranscript [] ;;
        Read (fun s =>
          (if recognitionRef (env s) then emit recognitionStart else fun s => s) ;;
          emit (recorderStart ref) ;;
          set_recording ref true ;;
          Done)
  end.

Definition stopListening (r : Render) : Proc :=
  Read (fun s =>
    (if recognitionRef (env s) then emit recognitionStop else fun s => s) ;;
    let rest := (setIsListening false ;; Done) in
    match audioRecorder r with
    | Some ref => stopRecorder ref rest
    | None => rest
    end).

Definition stopSpeaking (r : Render) : Proc :=
  if isSpeaking r then
    cancelSpeech (setIsSpeaking false ;; Done)
  else Done.

Definition fallbackFeedback : Feedback :=
  {| summary := cat [js "You participated in this "; sessionType P;
                     js " about "; topic P; js "."];
     strengths := [cat [js "Engaged in the "; sessionType P];
                   js "Provided responses to questions";
                   js "Completed the session"];
     improvements := [js "Technical issues prevented detailed feedback";
                      js "Try another session with a different connection";
                      js "Consider trying a different topic"] |}.

(** A call of [onEnd] after which nothing but the [finally] block
    (lines 752-755) runs, whether the call returns or throws: the call in
    the [catch] block (line 751), and the one in the [try] block (line 713)
    when it returns. *)
Definition finishEnd (feedback : Feedback) : Proc :=
  emit (onEnd feedback) ;;
  setIsThinking false ;;
  setIsEndingInterview false ;;
  Done.

(** Lines 732-751, the [catch] block: save the feedback when the stored
    session has an id, then report it. *)
Definition reportFeedback (feedback : Feedback) : Proc :=
  Read (fun s =>
    match session_id s with
    | Some i => Await (fetch_save_feedback i feedback) (fun _ => finishEnd feedback)
    | None => finishEnd feedback
    end).

(** [onEnd(feedback)] inside the [try] block (line 713): when the callback
    throws, the [catch] block runs and reports the fallback feedback. *)
Definition callOnEnd (feedback : Feedback) : Proc :=
  Read (fun s =>
    if onEnd_throws P (onEnd_args (log (env s))) feedback then
      emit (onEnd feedback) ;;
      reportFeedback fallbackFeedback
    else finishEnd feedback).

(** Lines 694-713, the rest of the [try] block: save the fetched feedback
    when the stored session has an id, then call [onEnd] with it. *)
Definition reportFetched (feedback : Feedback) : Proc :=
  Read (fun s =>
    match session_id s with
    | Some i => Await (fetch_save_feedback i feedback) (fun _ => callOnEnd feedback)
    | None => callOnEnd feedback
    end).

(** What [handleEndInterview] does once [generateInterviewFeedback] has
    settled: the rest of the [try] block or the [catch] block. *)
Definition afterFeedback (o : option Feedback) : Proc :=
  match o with
  | Some feedback => reportFetched feedback
  | None => reportFeedback fallbackFeedback
  end.

Definition handleEndInterview (r : Render) : Proc :=
  if isEndingInterview r then Done
  else
    setIsEndingInterview true ;;
    Read (fun s =>
      let rest :=
        let request_feedback :=
          setIsThinking true ;;
          Await (generateInterviewFeedback (map toAiMessage (messages r))
                   (sessionType P) (topic P))
            afterFeedback in
        match audioRecorder r with
        | Some ref => stopRecorder ref request_feedback
        | None => request_feedback
        end in
      if speaking (env s) then cancelSpeech rest else rest).

Definition handleKeyPress (r : Render) : Proc := handleSendMessage r None.

(** [sendToAI] returns a string: its caller's continuation [k] receives it. *)
Definition sendToAI (userMessages : list Message) (k : jsstring -> Proc)
  : Proc :=
  let recentMessages := slice_last 15 userMessages in
  Await (fetch_ai recentMessages (sessionType P) (topic P) (notes P) (details P))
    (fun o =>
       match o with
       | Some (Some response) => k response
       | _ => k (js "I apologize, but I'm experiencing technical difficulties. Let's try again.")
       end).

(** [recognition.onresult] (lines 131-149) on the results from
    [event.resultIndex] on, each with its [isFinal] flag. *)
Definition onresult (results : list (jsstring * bool)) : Proc :=
  let finalTranscript :=
    cat (map fst (filter (fun x => snd x = true) results)) in
  let interimTranscript :=
    cat (map fst (filter (fun x => snd x = false) results)) in
  if truthy finalTranscript then setLiveTranscript finalTranscript ;; Done
  else if truthy interimTranscript then setLiveTranscript interimTranscript ;; Done
  else Done.

(** [utterance.onend] and [utterance.onerror]. *)
Definition utterance_onend : Proc :=
  set_speaking false ;; setIsSpeaking false ;; Done.

End Component.

(** ** The event loop *)

Record World := { store : Store; pending : list Pending }.

(** Run a handler in a world; what it leaves suspended joins the queue. *)
Definition exec (p : Proc) (w : World) : World :=
  let '(s, ps) := run p (store w) in
  {| store := s; pending := pending w ++ ps |}.

Inductive Event :=
| clickConnect
| clickMic
| typeText (value : jsstring)
| pressEnter
| clickEnd
| clickStopSpeaking
| settle (i : nat) (o : Oracle)
| recognitionResult (results : list (jsstring * bool))
| utteranceEnd
| tick (t : N).

(** One turn of the event loop.  A user event runs the handler of the
    latest render, that is, React has committed earlier updates before the
    next user event is dispatched. *)
Definition step (P : Props) (ctx : jsstring) (w : World) (e : Event) : World :=
  let r := react (store w) in
  match e with
  | clickConnect => exec (setupAudioRecording P r) w
  | clickMic =>
      exec (if isListening r then stopListening P ctx r else startListening r) w
  | typeText value => exec (setUserInput value ;; Done) w
  | pressEnter => exec (handleKeyPress P ctx r) w
  | clickEnd => exec (handleEndInterview P ctx r) w
  | clickStopSpeaking => exec (stopSpeaking r) w
  | settle i o =>
      match pending w !! i with
      | Some x =>
          exec (resume x o) {| store := store w; pending := delete i (pending w) |}
      | None => w
      end
  | recognitionResult results => exec (onresult results) w
  | utteranceEnd => exec utterance_onend w
  | tick t => exec (set_now t ;; Done) w
  end.

Definition steps (P : Props) (ctx : jsstring) (w : World) (es : list Event)
  : World :=
  fold_left (step P ctx) es w.

(** Which user events the rendered page lets through: the [disabled]
    attributes and the conditional rendering of lines 896-1142. *)
Definition offered (r : Render) (e : Event) : bool :=
  match e with
  | clickConnect => negb (isConnected r)
  | clickMic =>
      isConnected r
      && negb (isLoading r || negb (bool_decide (is_Some (audioRecorder r)))
               || isSpeaking r)
  | typeText _ | pressEnter =>
      isConnected r && negb (isLoading r || isListening r || isSpeaking r)
  | clickEnd => isConnected r && negb (isEndingInterview r)
  | clickStopSpeaking => isSpeaking r
  | _ => true
  end.

(** The welcome message of lines 48-67; [dq] is the double quote. *)
Definition dq : jsstring := [34%N].

Definition welcomeMessage (P : Props) : jsstring :=
  if bool_decide (sessionType P = js "topic") then
    cat [js "Welcome to your lecture on "; topic P;
         js ". Click "; dq; js "Connect"; dq;
         js " to begin our session. I'll start with an overview and then we'll dive into the details."]
  else if bool_decide (sessionType P = js "qa") then
    cat [js "Welcome to your Q&A session on "; topic P;
         js ". Click "; dq; js "Connect"; dq;
         js " to begin. I'll be testing your knowledge with a series of questions."]
  else if bool_decide (sessionType P = js "language") then
    cat [js "Bonjour! Welcome to your language practice session. Click ";
         dq; js "Connect"; dq;
         js " to begin. Today we'll be practicing "; topic P; js "."]
  else
    cat [js "Hello! I'll be interviewing you about "; topic P;
         js " today. Click "; dq; js "Connect"; dq;
         js " to begin our conversation."].

(** The world once the component has mounted and its effects have run. *)
Definition mounted (P : Props) (t : N) (hasMediaDevices hasRecognition : bool)
  : World :=
  {| store :=
       {| react :=
            {| messages := [{| id := js "welcome"; content := welcomeMessage P;
                               role := assistant; timestamp := t |}];
               isListening := false; userInput := []; isLoading := false;
               isThinking := false; isSpeaking := false; isConnected := false;
               transcript := []; audioRecorder := None;
               isEndingInterview := false; liveTranscript := [] |};
          env :=
            {| now := t; mediaDevices := hasMediaDevices; recorders := [];
               recognitionRef := hasRecognition; speaking := false;
               interviewSession := None; log := [] |} |};
     pending := [] |}.

(** Number of [onEnd] calls in a log. *)
Definition is_onEnd (x : Effect) : bool :=
  match x with onEnd _ => true | _ => false end.

Definition onEnd_calls (l : list Effect) : nat :=
  length (filter (fun x => is_onEnd x) l).

(** The turn of the conversation as the page displays it (status label of
    lines 1055-1064, buttons of lines 939-950 and 1023-1040). *)
Inductive TurnState :=
| Disconnected | Idle | UserCapturing | AwaitingReply | AssistantSpeaking
| Ending.

Definition turnState (r : ReactState) : TurnState :=
  if negb (isConnected r) then Disconnected
  else if isEndingInterview r then Ending
  else if isThinking r then AwaitingReply
  else if isSpeaking r then AssistantSpeaking
  else if isListening r then UserCapturing
  else Idle.

(** Settle the youngest suspended part. *)
Definition settle_last (P : Props) (ctx : jsstring) (o : Oracle) (w : World)
  : World :=
  step P ctx w (settle (pred (length (pending w))) o).

(** An environment in which every promise is rejected. *)
Definition rejectAll : Oracle := fun _ => None.

(** ** A sample session *)

Definition demoProps : Props :=
  {| topic := js "Graphs"; sessionType := js "qa";
     details := {| d_role := []; d_company := []; d_experience := [];
                   d_specificSkills := [] |};
     notes := [];
     onEnd_throws := fun _ _ => false |}.

Definition demoWorld : World := mounted demoProps 1000 true true.

(** An environment in which every promise is fulfilled: transcription and
    reply with the given texts, create-interview without an id. *)
Definition fulfilAll (transcription reply : jsstring) : Oracle :=
  fun c =>
    match c return option (answer c) with
    | getUserMedia => Some tt
    | forceVoiceInit => Some true
    | transcribeAudio => Some transcription
    | fetch_create_interview _ _ _ => Some None
    | fetch_save_message _ _ _ => Some tt
    | fetch_save_feedback _ _ => Some tt
    | fetch_ai _ _ _ _ _ => Some (Some reply)
    | generateInterviewResponse _ _ _ => Some reply
    | generateInterviewFeedback _ _ _ =>
        Some {| summary := reply; strengths := []; improvements := [] |}
    end.

(** Every event of the list is one the page offers when it occurs. *)
Fixpoint admissible (P : Props) (ctx : jsstring) (w : World) (es : list Event)
  : bool :=
  match es with
  | [] => true
  | e :: es' =>
      offered (react (store w)) e && admissible P ctx (step P ctx w e) es'
  end.

(** The session ids of the save-message and save-feedback requests of a log. *)
Definition save_ids (l : list Effect) : list jsstring :=
  omap (fun x =>
          match x with
          | request (fetch_save_message i _ _) => Some i
          | request (fetch_save_feedback i _) => Some i
          | _ => None
          end) l.

Definition spoken (l : list Effect) : list jsstring :=
  omap (fun x => match x with speak text => Some text | _ => None end) l.

Definition allGood : Oracle := fulfilAll [] (js "Good question.").

(** Connect with a microphone, let the introduction be spoken to its end. *)
Definition connect_and_listen_to_intro : list Event :=
  [clickConnect; settle 0 allGood; settle 0 allGood; settle 0 allGood;
   settle 0 allGood; settle 0 allGood; utteranceEnd].

(** Connect, record an answer right away, stop; the introduction starts
    while the recording is still being transcribed. *)
Definition answer_before_intro : list Event :=
  [clickConnect; settle 0 allGood; clickMic; clickMic; settle 1 allGood;
   settle 0 allGood; settle 1 allGood; settle 1 allGood; settle 1 allGood].

(** Type something, then record; the recording is stopped and sent for
    transcription. *)
Definition type_then_record : list Event :=
  connect_and_listen_to_intro
  ++ [typeText (js "typed answer"); clickMic; clickMic; settle 0 allGood].

(** Speak while recording; the recognizer delivers a final result. *)
Definition speak_and_record : list Event :=
  connect_and_listen_to_intro
  ++ [clickMic; recognitionResult [(js "live words", true)]; clickMic;
      settle 0 allGood].

(** The recognizer delivers a result, the recorded transcription comes
    back empty, and Enter is pressed in the empty text box. *)
Definition enter_after_failed_capture : list Event :=
  connect_and_listen_to_intro
  ++ [clickMic; recognitionResult [(js "live words", true)]; clickMic;
      settle 0 allGood; settle 0 allGood; pressEnter].

Definition type_and_submit : list Event :=
  connect_and_listen_to_intro ++ [typeText (js "hi"); pressEnter].

(** End the session, let the request run to completion, end it again. *)
Definition end_twice : list Event :=
  connect_and_listen_to_intro
  ++ [clickEnd; settle 0 rejectAll; settle 0 rejectAll;
      clickEnd; settle 0 rejectAll; settle 0 rejectAll].

(** Submit a typed message, let the reply arrive and be spoken, then end the
    session and let the feedback arrive. *)
Definition talk_then_end : list Event :=
  type_and_submit
  ++ [settle 0 allGood; settle 0 allGood; settle 0 allGood; utteranceEnd;
      clickEnd; settle 0 allGood].

Definition idleWorld : World :=
  steps demoProps [] demoWorld connect_and_listen_to_intro.

Definition typedWorld (text : jsstring) : World :=
  step demoProps [] idleWorld (typeText text).

(** ** Further parts of the component *)

(** [String.prototype.padStart(n, c)] with a filler of one code unit. *)
Definition padStart (n : nat) (fill : N) (s : jsstring) : jsstring :=
  replicate (n - length s) fill ++ s.

(** [formatTime] (lines 171-175) on a whole number of seconds. *)
Definition formatTime (seconds : N) : jsstring :=
  let mins := (seconds / 60)%N in
  let secs := (seconds mod 60)%N in
  cat [padStart 2 48 (toString mins); js ":"; padStart 2 48 (toString secs)].

(** [getSessionTitle] (lines 851-862). *)
Definition getSessionTitle (P : Props) : jsstring :=
  if bool_decide (sessionType P = js "topic") then
    cat [js "Topic Lecture: "; topic P]
  else if bool_decide (sessionType P = js "qa") then
    cat [js "Q&A Session: "; topic P]
  else if bool_decide (sessionType P = js "language") then
    cat [js "Language Practice: "; topic P]
  else
    cat [js "Interview: "; topic P].

(** [testVoice] (lines 763-813). *)
Definition testVoice : Proc :=
  setIsSpeaking true ;;
  Await forceVoiceInit (fun o =>
    match o with
    | Some _ =>
        cancelSpeech
          (speakUtterance
             (js "Hello, this is a test of the voice system. If you can hear this, the voice system is working correctly.")
             Done)
    | None =>
        setIsSpeaking false ;;
        emit (alert (js "Voice test failed. Your browser may not fully support speech synthesis. Try using Chrome for the best experience.")) ;;
        Done
    end).

(** The handler [step] runs for an event other than [settle]. *)
Definition handler_of (P : Props) (ctx : jsstring) (r : Render) (e : Event)
  : Proc :=
  match e with
  | clickConnect => setupAudioRecording P r
  | clickMic => if isListening r then stopListening P ctx r else startListening r
  | typeText value => setUserInput value ;; Done
  | pressEnter => handleKeyPress P ctx r
  | clickEnd => handleEndInterview P ctx r
  | clickStopSpeaking => stopSpeaking r
  | settle _ _ => Done
  | recognitionResult results => onresult results
  | utteranceEnd => utterance_onend
  | tick t => set_now t ;; Done
  end.

(** ** Relations kept by every handler *)

Section Keeps.

Variable R : Store -> Store -> Prop.

(** Every synchronous action of the handler, now or after a resumption,
    takes a store to an [R]-related one. *)
Inductive keeps : Proc -> Prop :=
| keeps_Done : keeps Done
| keeps_Sync f k : (forall s, R s (f s)) -> keeps k -> keeps (Sync f k)
| keeps_Read k : (forall s, keeps (k s)) -> keeps (Read k)
| keeps_Await c k : (forall o, keeps (k o)) -> keeps (Await c k)
| keeps_Later cb k : keeps cb -> keeps k -> keeps (Later cb k).

Definition keeps_pending (x : Pending) : Prop :=
  forall o : Oracle, keeps (resume x o).

End Keeps.

(** Every event of the list passes the filter when it occurs. *)
Fixpoint permitted (allowed : Render -> Event -> bool) (P : Props)
    (ctx : jsstring) (w : World) (es : list Event) : bool :=
  match es with
  | [] => true
  | e :: es' =>
      allowed (react (store w)) e && permitted allowed P ctx (step P ctx w e) es'
  end.

(** The conversation only grows. *)
Definition grows (s s' : Store) : Prop :=
  messages (react s) `prefix_of` messages (react s').

Definition stays_connected (s s' : Store) : Prop :=
  isConnected (react s) = true -> isConnected (react s') = true.

(** Not empty, no white space at either end. *)
Definition clean (c : jsstring) : Prop :=
  c <> []
  /\ (forall x, head c = Some x -> isWhiteSpace x = false)
  /\ (forall x, last c = Some x -> isWhiteSpace x = false).

Definition user_messages_clean (s : Store) : Prop :=
  Forall (fun m => role m = user -> clean (content m)) (messages (react s)).

Definition preserves (I : Store -> Prop) (s s' : Store) : Prop := I s -> I s'.

(** A stored session record has a truthy id, and stays stored. *)
Definition session_usable (s : Store) : Prop :=
  is_Some (interviewSession (env s)) -> is_Some (session_id s).

Definition session_kept (s s' : Store) : Prop :=
  (is_Some (interviewSession (env s)) -> is_Some (interviewSession (env s')))
  /\ (session_usable s -> session_usable s').

(** A recorder, once created, keeps its ['stop'] listener. *)
Definition listeners_fixed (s s' : Store) : Prop :=
  forall ref m,
    recorders (env s) !! ref = Some m ->
    exists m', recorders (env s') !! ref = Some m' /\ onstop m' = onstop m.

Definition listeners_disconnected (s : Store) : Prop :=
  Forall (fun m => isConnected (onstop m) = false) (recorders (env s)).

(** What is left of a store once speech in progress, if any, has been
    cancelled (lines 627-629 and 665-667). *)
Definition hush (s : Store) : Store :=
  if speaking (env s) then set_speaking false (emit speechCancel s) else s.

(** The continuation of [playAudioResponse] after [forceVoiceInit]. *)
Definition voiceReady (text : jsstring) (o : option bool) : Proc :=
  match o with
  | Some _ => cancelSpeech (speakUtterance text Done)
  | None => setIsSpeaking false ;; Done
  end.

(** The text [l] contains the text [t]. *)
Definition mentions (t l : jsstring) : Prop :=
  exists pre post, l = pre ++ t ++ post.

(** An environment like [allGood] in which create-session answers with the
    id [i]. *)
Definition serverGives (i : jsstring) : Oracle :=
  fun c =>
    match c return option (answer c) with
    | fetch_create_interview _ _ _ => Some (Some i)
    | c' => allGood c'
    end.

(** The sample session once the microphone has been granted. *)
Definition grantedWorld : World :=
  steps demoProps [] demoWorld [clickConnect; settle 0 allGood].

(** The sample props with a callback that throws whenever it is called. *)
Definition throwingProps : Props :=
  {| topic := topic demoProps; sessionType := sessionType demoProps;
     details := details demoProps; notes := notes demoProps;
     onEnd_throws := fun _ _ => true |}.

(** One end request: the feedback arrives, it is saved, and so is the
    fallback feedback. *)
Definition end_once : list Event :=
  connect_and_listen_to_intro
  ++ [clickEnd; settle 0 allGood; settle 0 allGood; settle 0 allGood].

(** The lengths of the histories handed to [generateInterviewResponse], and
    of those sent to [/api/ai] by [sendToAI], in a log. *)
Definition requested_histories (l : list Effect) : list nat :=
  omap (fun x =>
          match x with
          | request (generateInterviewResponse a _ _) => Some (length a)
          | _ => None
          end) l.

Definition windowed_requests (l : list Effect) : list nat :=
  omap (fun x =>
          match x with
          | request (fetch_ai m _ _ _ _) => Some (length m)
          | _ => None
          end) l.

(** A typed message, its reply, and the reply spoken to its end. *)
Definition one_turn : list Event :=
  [typeText (js "hi"); pressEnter; settle 0 allGood; settle 0 allGood;
   settle 0 allGood; utteranceEnd].

(** Eight turns, then a ninth submission. *)
Definition long_conversation : list Event :=
  connect_and_listen_to_intro
  ++ concat (replicate 8 one_turn)
  ++ [typeText (js "hi"); pressEnter].

(** * Properties *)

(** ** Strings *)

Lemma toString_truthy (n : N) : truthy (toString n) = true.
Proof.
  unfold toString, js.
  destruct (N.to_uint n); reflexivity.
Qed.

Lemma trimStart_suffix (s : jsstring) :
  exists ws, s = ws ++ trimStart s /\ Forall (fun c => isWhiteSpace c = true) ws.
Proof.
  induction s as [|c t IH]; simpl.
  - exists []. split; [reflexivity | constructor].
  - destruct (isWhiteSpace c) eqn:Hc.
    + destruct IH as (ws & Heq & Hws).
      exists (c :: ws). split.
      * simpl. congruence.
      * constructor; assumption.
    + exists []. split; [reflexivity | constructor].
Qed.

Lemma trimStart_head (s : jsstring) (c : N) (t : jsstring) :
  trimStart s = c :: t -> isWhiteSpace c = false.
Proof.
  induction s as [|a s IH]; simpl; [discriminate|].
  destruct (isWhiteSpace a) eqn:Ha; [exact IH|].
  intros [= <- _]. exact Ha.
Qed.

Lemma trimStart_blank (s : jsstring) :
  Forall (fun c => isWhiteSpace c = true) s -> trimStart s = [].
Proof.
  induction 1 as [|c t Hc _ IH]; simpl; [reflexivity|].
  rewrite Hc. exact IH.
Qed.

Lemma trim_blank (s : jsstring) :
  Forall (fun c => isWhiteSpace c = true) s -> trim s = [].
Proof.
  intros H. unfold trim, trimEnd. rewrite (trimStart_blank s H). reflexivity.
Qed.

Lemma trimEnd_prefix (s : jsstring) :
  exists ws, s = trimEnd s ++ ws.
Proof.
  unfold trimEnd.
  destruct (trimStart_suffix (rev s)) as (ws & Heq & _).
  exists (rev ws).
  rewrite <- rev_app_distr, <- Heq, rev_involutive. reflexivity.
Qed.

Lemma trim_head (s : jsstring) (c : N) (t : jsstring) :
  trim s = c :: t -> isWhiteSpace c = false.
Proof.
  unfold trim. intros H.
  destruct (trimEnd_prefix (trimStart s)) as (ws & Heq).
  rewrite H in Heq. simpl in Heq.
  exact (trimStart_head s c (t ++ ws) Heq).
Qed.

Lemma trim_last (s : jsstring) (c : N) :
  last (trim s) = Some c -> isWhiteSpace c = false.
Proof.
  unfold trim, trimEnd.
  destruct (trimStart (rev (trimStart s))) as [|a t] eqn:E; simpl; [discriminate|].
  rewrite last_snoc. intros [= <-]. exact (trimStart_head _ _ _ E).
Qed.

Lemma truthy_nonempty (s : jsstring) : truthy s = true <-> s <> [].
Proof. destruct s; simpl; split; congruence. Qed.

(** ** Queue bookkeeping *)

Lemma lookup_youngest {A} (l : list A) (x : A) :
  (l ++ [x]) !! pred (length (l ++ [x])) = Some x.
Proof.
  rewrite length_app, Nat.add_1_r. simpl.
  rewrite lookup_app_r by lia. rewrite Nat.sub_diag. reflexivity.
Qed.

Lemma delete_youngest {A} (l : list A) (x : A) :
  delete (pred (length (l ++ [x]))) (l ++ [x]) = l.
Proof.
  rewrite length_app, Nat.add_1_r. simpl.
  induction l as [|a l IH]; simpl; [reflexivity|].
  f_equal. exact IH.
Qed.

Lemma settle_last_app P ctx o (s : Store) (ps : list Pending) (x : Pending) :
  settle_last P ctx o {| store := s; pending := ps ++ [x] |}
  = exec (resume x o) {| store := s; pending := ps |}.
Proof.
  unfold settle_last, step. cbn [pending store].
  rewrite lookup_youngest, delete_youngest. reflexivity.
Qed.

Lemma onEnd_calls_app (l1 l2 : list Effect) :
  onEnd_calls (l1 ++ l2) = onEnd_calls l1 + onEnd_calls l2.
Proof. unfold onEnd_calls. rewrite filter_app, length_app. reflexivity. Qed.

Lemma onEnd_calls_snoc (l : list Effect) (x : Effect) :
  onEnd_calls (l ++ [x]) = onEnd_calls l + (if is_onEnd x then 1 else 0).
Proof. rewrite onEnd_calls_app. destruct x; reflexivity. Qed.

#[local] Arguments onEnd_calls : simpl never.

(** ** Submitting a message *)

Section Submit.

Variable P : Props.
Variable ctx : jsstring.

(** The synchronous part of an accepted submission, up to the [await]. *)
Lemma handleSendMessage_accepted (r : Render) (t : option jsstring) (s : Store) :
  trim (textToSend r t) <> [] ->
  let m := {| id := toString (now (env s));
              content := trim (textToSend r t);
              role := user; timestamp := now (env s) |} in
  let c := generateInterviewResponse
             (aiMessagesFor r (trim (textToSend r t))) ctx (topic P) in
  run (handleSendMessage P ctx r t) s
  = (emit (request c)
       (setIsThinking true
          (saveMessage (session_id s) (content m) user
             (setIsLoading true
                (setLiveTranscript []
                   (setTranscript []
                      (setUserInput []
                         (setMessages (fun prev => prev ++ [m]) s))))))),
     [PAwait c (afterReply r (session_id s))]).
Proof.
  intros Hne m c. unfold handleSendMessage.
  destruct (truthy (trim (textToSend r t))) eqn:Ht.
  - reflexivity.
  - apply truthy_nonempty in Hne. congruence.
Qed.

Lemma react_saveMessage (i : option jsstring) (x : jsstring) (q : Role) (s : Store) :
  react (saveMessage i x q s) = react s.
Proof. destruct i; reflexivity. Qed.

(** C6: submitting text that is empty or consists of white space only does
    nothing: the store (state variables and the log of network calls) is
    the same afterwards, no Message is appended and nothing is left
    pending. *)
Theorem handleSendMessage_blank_noop (r : Render) (t : option jsstring)
    (s : Store) (w : World) :
  Forall (fun c => isWhiteSpace c = true) (textToSend r t) ->
  run (handleSendMessage P ctx r t) s = (s, [])
  /\ exec (handleSendMessage P ctx r t) w = w.
Proof.
  intros Hblank.
  assert (Hrun : forall s0, run (handleSendMessage P ctx r t) s0 = (s0, [])).
  { intros s0. unfold handleSendMessage.
    rewrite (trim_blank _ Hblank). reflexivity. }
  split; [apply Hrun|].
  unfold exec. rewrite Hrun, app_nil_r. destruct w; reflexivity.
Qed.

(** C10: a Message appended by a user submission has role user and the
    trimmed text as content, which is not empty and neither starts nor ends
    with white space; the typed input, the transcript and the live
    transcript are empty after the append. *)
Theorem handleSendMessage_appends_trimmed (r : Render) (t : option jsstring)
    (s : Store) :
  trim (textToSend r t) <> [] ->
  let s' := fst (run (handleSendMessage P ctx r t) s) in
  exists m,
    messages (react s') = messages (react s) ++ [m]
    /\ role m = user
    /\ content m = trim (textToSend r t)
    /\ content m <> []
    /\ (forall c, head (content m) = Some c -> isWhiteSpace c = false)
    /\ (forall c, last (content m) = Some c -> isWhiteSpace c = false)
    /\ userInput (react s') = []
    /\ transcript (react s') = []
    /\ liveTranscript (react s') = [].
Proof.
  intros Hne s'. subst s'.
  rewrite (handleSendMessage_accepted r t s Hne). cbn [fst].
  eexists. cbn [react emit on_env on_react setIsThinking].
  rewrite react_saveMessage. cbn.
  split; [reflexivity|]. split; [reflexivity|]. split; [reflexivity|].
  split; [exact Hne|].
  split.
  { intros c Hc. destruct (trim (textToSend r t)) as [|a l] eqn:E; [discriminate|].
    injection Hc as <-. exact (trim_head _ _ _ E). }
  split; [intros c Hc; exact (trim_last _ _ Hc)|].
  repeat split.
Qed.

(** The history handed to the reply helper is the history of the render
    plus the new message, whatever its length. *)
Lemma handleSendMessage_history (r : Render) (t : option jsstring) (s : Store) :
  trim (textToSend r t) <> [] ->
  exists k,
    snd (run (handleSendMessage P ctx r t) s)
    = [PAwait (generateInterviewResponse
                 (map toAiMessage (messages r)
                  ++ [{| ai_role := user; ai_content := trim (textToSend r t) |}])
                 ctx (topic P)) k].
Proof.
  intros Hne. rewrite (handleSendMessage_accepted r t s Hne).
  eexists. reflexivity.
Qed.

(** A request of [sendToAI] carries the last 15 messages of the history it
    is given, all of them when there are at most 15. *)
Lemma sendToAI_window (userMessages : list Message) (k : jsstring -> Proc)
    (s : Store) :
  exists recent,
    log (env (fst (run (sendToAI P userMessages k) s)))
    = log (env s)
      ++ [request (fetch_ai recent (sessionType P) (topic P) (notes P) (details P))]
    /\ length recent = Nat.min 15 (length userMessages)
    /\ userMessages = take (length userMessages - 15) userMessages ++ recent.
Proof.
  exists (slice_last 15 userMessages). split; [reflexivity|]. split.
  - unfold slice_last. rewrite length_drop. lia.
  - unfold slice_last. symmetry. apply take_drop.
Qed.

Lemma requested_histories_snoc (l : list Effect) (x : Effect) :
  requested_histories (l ++ [x])
  = requested_histories l
    ++ match x with
       | request (generateInterviewResponse a _ _) => [length a]
       | _ => []
       end.
Proof.
  unfold requested_histories. rewrite omap_app.
  destruct x as [c| | | | | | | |]; try reflexivity.
  destruct c; reflexivity.
Qed.

(** C7, as the code has it: a request of [sendToAI] carries at most the 15
    most recent messages of the history it is given; the reply request that
    [handleSendMessage] makes goes to [generateInterviewResponse] instead
    and carries the whole history of its render and the new message. *)
Theorem reply_request_history (userMessages : list Message)
    (k : jsstring -> Proc) (s : Store) (r : Render) (t : option jsstring)
    (s' : Store) :
  trim (textToSend r t) <> [] ->
  (exists recent,
     log (env (fst (run (sendToAI P userMessages k) s)))
     = log (env s)
       ++ [request (fetch_ai recent (sessionType P) (topic P) (notes P) (details P))]
     /\ length recent = Nat.min 15 (length userMessages)
     /\ userMessages = take (length userMessages - 15) userMessages ++ recent)
  /\ last (log (env (fst (run (handleSendMessage P ctx r t) s'))))
     = Some (request
               (generateInterviewResponse
                  (map toAiMessage (messages r)
                   ++ [{| ai_role := user; ai_content := trim (textToSend r t) |}])
                  ctx (topic P)))
  /\ requested_histories (log (env (fst (run (handleSendMessage P ctx r t) s'))))
     = requested_histories (log (env s')) ++ [S (length (messages r))]
  /\ windowed_requests (log (env (fst (run (handleSendMessage P ctx r t) s'))))
     = windowed_requests (log (env s')).
Proof.
  intros Hne. split; [apply sendToAI_window|].
  rewrite (handleSendMessage_accepted r t s' Hne). cbn [fst].
  unfold aiMessagesFor.
  destruct (session_id s'); cbn [saveMessage]; cbn;
    rewrite ?last_snoc, ?requested_histories_snoc;
    unfold windowed_requests; rewrite ?omap_app; cbn;
    rewrite ?app_nil_r, ?length_app, ?length_map; cbn;
    rewrite ?Nat.add_1_r; repeat split; reflexivity.
Qed.

End Submit.

(** ** Ending the session *)

Section EndInterview.

Variable P : Props.
Variable ctx : jsstring.

Lemma exec_Done (w : World) : exec Done w = w.
Proof. unfold exec. cbn. rewrite app_nil_r. destruct w; reflexivity. Qed.

(** With the ending flag set in the current render the handler returns at
    once. *)
Lemma clickEnd_while_ending (w : World) :
  isEndingInterview (react (store w)) = true ->
  step P ctx w clickEnd = w.
Proof.
  intros H. unfold step, handleEndInterview. rewrite H. apply exec_Done.
Qed.

Lemma clicks_while_ending (n : nat) (w : World) :
  isEndingInterview (react (store w)) = true ->
  steps P ctx w (repeat clickEnd n) = w.
Proof.
  intros H. induction n as [|n IH]; [reflexivity|].
  unfold steps in *. cbn [repeat fold_left].
  rewrite (clickEnd_while_ending w H). exact IH.
Qed.

(** An accepted end request: the flag is raised and the feedback request is
    the youngest suspended part. *)
Lemma end_request_accepted (r : Render) (s : Store) :
  isEndingInterview r = false ->
  exists s1 ps,
    run (handleEndInterview P ctx r) s
    = (s1, ps ++ [PAwait (generateInterviewFeedback
                            (map toAiMessage (messages r))
                            (sessionType P) (topic P))
                         (afterFeedback P)])
    /\ isEndingInterview (react s1) = true
    /\ session_id s1 = session_id s
    /\ onEnd_calls (log (env s1)) = onEnd_calls (log (env s)).
Proof.
  intros Hflag. unfold handleEndInterview. rewrite Hflag.
  cbn [run].
  destruct (speaking (env (setIsEndingInterview true s)));
    destruct (audioRecorder r) as [ref|]; cbn [run cancelSpeech stopRecorder];
    try (destruct (recorders _ !! ref) as [m|]; [destruct (recording m)|]);
    cbn [run].
  all: try (eexists; exists []; split; [reflexivity|]).
  all: try (eexists; eexists [_]; split; [reflexivity|]).
  all: unfold session_id; cbn; rewrite ?onEnd_calls_snoc; cbn [is_onEnd].
  all: repeat split; lia.
Qed.

(** Reporting a feedback object: after the optional save has settled,
    [onEnd] has been called with it and the flags are lowered. *)
Lemma reportFeedback_completes (fb : Feedback) (o : Oracle) (s : Store)
    (ps : list Pending) :
  let w := exec (reportFeedback fb) {| store := s; pending := ps |} in
  session_id (store w) = session_id s
  /\ let w' := match session_id s with
               | Some _ => settle_last P ctx o w
               | None => w
               end in
     exists l,
       log (env (store w')) = l ++ [onEnd fb]
       /\ onEnd_calls l = onEnd_calls (log (env s))
       /\ isEndingInterview (react (store w')) = false
       /\ isThinking (react (store w')) = false
       /\ pending w' = ps.
Proof.
  unfold exec, reportFeedback. cbn [run store pending].
  destruct (session_id s) as [i|] eqn:Hid; cbn [run finishEnd].
  - split; [unfold session_id in *; cbn; exact Hid|].
    rewrite settle_last_app. unfold exec. cbn [resume run finishEnd store pending].
    eexists. split; [cbn; reflexivity|].
    rewrite onEnd_calls_snoc. cbn. rewrite app_nil_r. repeat split; lia.
  - split; [exact Hid|].
    eexists. split; [cbn; reflexivity|].
    cbn. rewrite app_nil_r. repeat split; lia.
Qed.

(** The same for the fetched feedback, when the callback returns. *)
Lemma reportFetched_completes (fb : Feedback) (o : Oracle) (s : Store)
    (ps : list Pending) :
  (forall h, onEnd_throws P h fb = false) ->
  let w := exec (reportFetched P fb) {| store := s; pending := ps |} in
  session_id (store w) = session_id s
  /\ let w' := match session_id s with
               | Some _ => settle_last P ctx o w
               | None => w
               end in
     exists l,
       log (env (store w')) = l ++ [onEnd fb]
       /\ onEnd_calls l = onEnd_calls (log (env s))
       /\ isEndingInterview (react (store w')) = false
       /\ isThinking (react (store w')) = false
       /\ pending w' = ps.
Proof.
  intros Hret. unfold exec, reportFetched. cbn [run store pending].
  destruct (session_id s) as [i|] eqn:Hid; cbn [run].
  - split; [unfold session_id in *; cbn; exact Hid|].
    rewrite settle_last_app. unfold exec, callOnEnd.
    cbn [resume run store pending]. rewrite Hret. cbn [run finishEnd].
    eexists. split; [cbn; reflexivity|].
    rewrite onEnd_calls_snoc. cbn. rewrite app_nil_r. repeat split; lia.
  - unfold callOnEnd. cbn [run]. rewrite Hret. cbn [run finishEnd].
    split; [exact Hid|].
    eexists. split; [cbn; reflexivity|].
    cbn. rewrite app_nil_r. repeat split; lia.
Qed.

(** One end request from acceptance to completion, when the callback
    returns on the fetched feedback. *)
Lemma end_request_outcome (w : World) (o1 o2 : Oracle) :
  isEndingInterview (react (store w)) = false ->
  (forall f, o1 (generateInterviewFeedback
                   (map toAiMessage (messages (react (store w))))
                   (sessionType P) (topic P)) = Some f ->
             forall h, onEnd_throws P h f = false) ->
  let w1 := step P ctx w clickEnd in
  let w3 := settle_last P ctx o1 w1 in
  let w4 := match session_id (store w3) with
            | Some _ => settle_last P ctx o2 w3
            | None => w3
            end in
  let fb := match o1 (generateInterviewFeedback
                        (map toAiMessage (messages (react (store w))))
                        (sessionType P) (topic P)) with
            | Some f => f
            | None => fallbackFeedback P
            end in
  isEndingInterview (react (store w1)) = true
  /\ exists l,
       log (env (store w4)) = l ++ [onEnd fb]
       /\ onEnd_calls l = onEnd_calls (log (env (store w)))
       /\ isEndingInterview (react (store w4)) = false.
Proof.
  intros Hflag Hret.
  destruct (end_request_accepted (react (store w)) (store w) Hflag)
    as (s1 & ps & Hrun & Hup & Hid & Hcalls).
  assert (H1 : step P ctx w clickEnd
               = {| store := s1;
                    pending := (pending w ++ ps)
                               ++ [PAwait (generateInterviewFeedback
                                             (map toAiMessage (messages (react (store w))))
                                             (sessionType P) (topic P))
                                          (afterFeedback P)] |}).
  { unfold step, exec. rewrite Hrun, app_assoc. reflexivity. }
  cbn zeta. rewrite !H1, !settle_last_app. cbn [store resume].
  split; [exact Hup|].
  destruct (o1 (generateInterviewFeedback
                  (map toAiMessage (messages (react (store w))))
                  (sessionType P) (topic P))) as [f|];
    cbn [afterFeedback];
    [ destruct (reportFetched_completes f o2 s1 (pending w ++ ps)
                  (Hret f eq_refl))
        as (Hsame & l & Hlog & Hl & Hdown & _ & _)
    | destruct (reportFeedback_completes (fallbackFeedback P) o2 s1
                  (pending w ++ ps))
        as (Hsame & l & Hlog & Hl & Hdown & _ & _) ];
    cbn zeta in Hsame; rewrite Hsame;
    exists l; rewrite Hlog; (repeat split; [congruence | exact Hdown]).
Qed.


(** C5: when the feedback fetch fails, [onEnd] is still called, with the
    canned feedback, whose summary is not empty and whose strengths and
    improvements have entries. *)
Theorem feedback_failure_reports_fallback (w : World) (o1 o2 : Oracle) :
  isEndingInterview (react (store w)) = false ->
  (forall a b c, o1 (generateInterviewFeedback a b c) = None) ->
  let w1 := step P ctx w clickEnd in
  let w3 := settle_last P ctx o1 w1 in
  let w4 := match session_id (store w3) with
            | Some _ => settle_last P ctx o2 w3
            | None => w3
            end in
  last (log (env (store w4))) = Some (onEnd (fallbackFeedback P))
  /\ onEnd_calls (log (env (store w4))) = S (onEnd_calls (log (env (store w))))
  /\ summary (fallbackFeedback P) <> []
  /\ 1 <= length (strengths (fallbackFeedback P))
  /\ 1 <= length (improvements (fallbackFeedback P)).
Proof.
  intros Hflag Hfail.
  assert (Hret : forall f,
            o1 (generateInterviewFeedback
                  (map toAiMessage (messages (react (store w))))
                  (sessionType P) (topic P)) = Some f ->
            forall h, onEnd_throws P h f = false)
    by (intros f Hf; rewrite Hfail in Hf; discriminate).
  destruct (end_request_outcome w o1 o2 Hflag Hret) as (_ & l & Hlog & Hl & _).
  cbn zeta in *. rewrite Hfail in Hlog.
  rewrite Hlog, last_snoc, onEnd_calls_snoc, Hl. cbn [is_onEnd].
  split; [reflexivity|]. split; [lia|].
  split; [discriminate|]. cbn. lia.
Qed.

End EndInterview.

(** ** Capturing speech *)

Section Capture.

Variable P : Props.
Variable ctx : jsstring.

(** C2, as the code has it: while the assistant is speaking
    [startListening] changes no state variable, touches no recorder and
    leaves nothing pending, and the page offers neither the microphone
    button nor the text box; [handleSendMessage] has no such guard. *)
Theorem speaking_blocks_capture (r : Render) (s : Store) (v : jsstring) :
  isSpeaking r = true ->
  react (fst (run (startListening r) s)) = react s
  /\ recorders (env (fst (run (startListening r) s))) = recorders (env s)
  /\ snd (run (startListening r) s) = []
  /\ (is_Some (audioRecorder r) -> run (startListening r) s = (s, []))
  /\ offered r clickMic = false
  /\ offered r pressEnter = false
  /\ offered r (typeText v) = false.
Proof.
  intros Hsp. unfold startListening, offered. rewrite Hsp.
  destruct (audioRecorder r) as [ref|]; cbn.
  - rewrite !orb_true_r, !andb_false_r. repeat split.
  - rewrite !orb_true_r, !andb_false_r. repeat split.
    intros [x Hx]. discriminate.
Qed.

(** C3, as the code has it: [handleSendMessage] submits the live transcript
    of its render when that is not empty, else the transcription it is
    given when that is not empty, else the typed text; at capture-stop it is
    called only with a non-empty recorded transcription, and with an empty
    one nothing is submitted and the text box is cleared. *)
Theorem transcript_precedence (r : Render) (t : option jsstring) (s : Store) :
  (liveTranscript r <> [] -> textToSend r t = liveTranscript r)
  /\ (liveTranscript r = [] ->
      forall x, t = Some x -> x <> [] -> textToSend r t = x)
  /\ (liveTranscript r = [] -> t = None \/ t = Some [] ->
      textToSend r t = userInput r)
  /\ (trim (textToSend r t) <> [] ->
      exists m,
        messages (react (fst (run (handleSendMessage P ctx r t) s)))
        = messages (react s) ++ [m]
        /\ content m = trim (textToSend r t))
  /\ (forall x, x <> [] ->
      run (afterTranscription P ctx r (Some x)) s
      = run (handleSendMessage P ctx r (Some x))
          (setTranscript x (setUserInput x (setIsLoading false s))))
  /\ run (afterTranscription P ctx r (Some [])) s
     = (setUserInput [] (setIsLoading false s), [])
  /\ messages (react (fst (run (afterTranscription P ctx r None) s)))
     = messages (react s).
Proof.
  unfold textToSend.
  split.
  { intros H. apply truthy_nonempty in H. rewrite H. reflexivity. }
  split.
  { intros -> x -> Hx. apply truthy_nonempty in Hx. cbn. rewrite Hx. reflexivity. }
  split.
  { intros -> [-> | ->]; reflexivity. }
  split.
  { intros Hne. rewrite (handleSendMessage_accepted P ctx r t s Hne). cbn [fst].
    eexists. cbn [react emit on_env on_react setIsThinking].
    rewrite react_saveMessage. cbn. split; reflexivity. }
  split.
  { intros x Hx. apply truthy_nonempty in Hx.
    unfold afterTranscription. cbn [run]. rewrite Hx. reflexivity. }
  split; reflexivity.
Qed.

End Capture.

(** ** Replies, persistence, connecting *)

Section Session.

Variable P : Props.
Variable ctx : jsstring.

Lemma spoken_snoc (l : list Effect) (x : Effect) :
  spoken (l ++ [x])
  = spoken l ++ match x with speak text => [text] | _ => [] end.
Proof. unfold spoken. rewrite omap_app. destruct x; reflexivity. Qed.

Lemma save_ids_snoc (l : list Effect) (x : Effect) :
  save_ids (l ++ [x])
  = save_ids l ++ match x with
                  | request (fetch_save_message i _ _) => [i]
                  | request (fetch_save_feedback i _) => [i]
                  | _ => []
                  end.
Proof.
  unfold save_ids. rewrite omap_app.
  destruct x as [c| | | | | | | |]; try reflexivity.
  destruct c; reflexivity.
Qed.

(** C4, as the code has it: when the reply fetch fails the fixed apology
    Message is appended and the thinking and loading flags are lowered;
    nothing is spoken and nothing is left pending, so the turn goes from
    AwaitingReply straight back to Idle. *)
Theorem reply_failure_recovers (r : Render) (t : option jsstring) (w : World)
    (o : Oracle) :
  trim (textToSend r t) <> [] ->
  (forall a b c, o (generateInterviewResponse a b c) = None) ->
  let w1 := exec (handleSendMessage P ctx r t) w in
  let w2 := settle_last P ctx o w1 in
  isThinking (react (store w1)) = true
  /\ messages (react (store w2))
     = messages (react (store w1)) ++ [errorMessage (now (env (store w1)))]
  /\ content (errorMessage (now (env (store w1))))
     = js "I'm sorry, I'm having trouble responding right now. Let's continue our conversation."
  /\ isThinking (react (store w2)) = false
  /\ isLoading (react (store w2)) = false
  /\ isSpeaking (react (store w2)) = isSpeaking (react (store w))
  /\ spoken (log (env (store w2))) = spoken (log (env (store w)))
  /\ pending w2 = pending w
  /\ (turnState (react (store w)) = Idle ->
      turnState (react (store w1)) = AwaitingReply
      /\ turnState (react (store w2)) = Idle).
Proof.
  intros Hne Hfail. cbn zeta. unfold exec.
  rewrite (handleSendMessage_accepted P ctx r t (store w) Hne).
  cbv beta iota. rewrite !settle_last_app. cbn [resume]. rewrite Hfail.
  unfold exec, afterReply, replyFailed. cbn [run store pending].
  rewrite app_nil_r.
  destruct w as [[rs e] ps]. cbn [store pending react env].
  destruct (session_id {| react := rs; env := e |}) as [i|];
    cbn; rewrite ?spoken_snoc, ?app_nil_r;
    (repeat split; try reflexivity);
    unfold turnState in *; cbn in *;
    destruct (isConnected rs), (isEndingInterview rs), (isThinking rs),
      (isSpeaking rs), (isListening rs); cbn in *;
    try discriminate; reflexivity.
Qed.

(** C8, as the code has it: [startInterview] stores a locally generated id,
    which stays in place when create-session supplies none, and the save
    calls are then made with it; they are skipped only when the stored
    session has no id at all. *)
Theorem local_id_keeps_saves (w : World) (o : Oracle) (r : Render)
    (t : option jsstring) (fb : Feedback) :
  (forall a b c, o (fetch_create_interview a b c) = None
                 \/ o (fetch_create_interview a b c) = Some None
                 \/ o (fetch_create_interview a b c) = Some (Some [])) ->
  trim (textToSend r t) <> [] ->
  let local := toString (now (env (store w))) in
  let w1 := settle_last P ctx o (exec (startInterview P) w) in
  session_id (store w1) = Some local
  /\ save_ids (log (env (fst (run (handleSendMessage P ctx r t) (store w1)))))
     = save_ids (log (env (store w))) ++ [local]
  /\ save_ids (log (env (fst (run (reportFeedback fb) (store w1)))))
     = save_ids (log (env (store w))) ++ [local]
  /\ (forall s, session_id s = None ->
      save_ids (log (env (fst (run (handleSendMessage P ctx r t) s))))
      = save_ids (log (env s))
      /\ save_ids (log (env (fst (run (reportFeedback fb) s))))
         = save_ids (log (env s))).
Proof.
  intros Hnoid Hne. cbn zeta.
  assert (Hsaved : forall s i, session_id s = Some i ->
            save_ids (log (env (fst (run (handleSendMessage P ctx r t) s))))
            = save_ids (log (env s)) ++ [i]
            /\ save_ids (log (env (fst (run (reportFeedback fb) s))))
               = save_ids (log (env s)) ++ [i]).
  { intros s i Hi. rewrite (handleSendMessage_accepted P ctx r t s Hne).
    unfold reportFeedback. cbn [run fst]. rewrite Hi. cbn.
    rewrite !save_ids_snoc, !app_nil_r. split; reflexivity. }
  assert (Hskipped : forall s, session_id s = None ->
            save_ids (log (env (fst (run (handleSendMessage P ctx r t) s))))
            = save_ids (log (env s))
            /\ save_ids (log (env (fst (run (reportFeedback fb) s))))
               = save_ids (log (env s))).
  { intros s Hi. rewrite (handleSendMessage_accepted P ctx r t s Hne).
    unfold reportFeedback. cbn [run fst]. rewrite Hi. cbn.
    rewrite !save_ids_snoc, !app_nil_r. split; reflexivity. }
  set (w1 := settle_last P ctx o (exec (startInterview P) w)).
  assert (Hw1 : session_id (store w1) = Some (toString (now (env (store w))))
                /\ save_ids (log (env (store w1))) = save_ids (log (env (store w)))).
  { subst w1. unfold exec, startInterview. cbn [run store pending].
    rewrite settle_last_app. cbn [resume].
    destruct (Hnoid (topic P) (sessionType P) (notes P)) as [-> | [-> | ->]];
      unfold exec; cbn [run store]; unfold session_id; cbn;
      rewrite toString_truthy, save_ids_snoc, app_nil_r; split; reflexivity. }
  destruct Hw1 as [Hid Hlog].
  destruct (Hsaved (store w1) _ Hid) as [H1 H2].
  rewrite H1, H2, Hlog. repeat split; try assumption; apply Hskipped; assumption.
Qed.

(** C9: when the microphone cannot be acquired the session is connected all
    the same, without a recorder, the user is told once, and the
    introduction starts: when the timer fires the introduction Message is
    appended. *)
Theorem microphone_failure_still_connects (w : World) (o o' : Oracle) :
  o getUserMedia = None ->
  let w1 := step P ctx w clickConnect in
  let w2 := if mediaDevices (env (store w)) then settle_last P ctx o w1 else w1 in
  let w3 := settle_last P ctx o' w2 in
  isConnected (react (store w2)) = true
  /\ audioRecorder (react (store w2)) = audioRecorder (react (store w))
  /\ recorders (env (store w2)) = recorders (env (store w))
  /\ last (log (env (store w2)))
     = Some (alert (js "Could not access microphone. Voice input will not be available."))
  /\ pending w2 = pending w ++ [PTimer (startInterview P)]
  /\ (isEndingInterview (react (store w)) = false ->
      isThinking (react (store w)) = false ->
      isSpeaking (react (store w)) = false ->
      isListening (react (store w)) = false ->
      turnState (react (store w2)) = Idle)
  /\ messages (react (store w3))
     = messages (react (store w))
       ++ [{| id := toString (now (env (store w))); content := introMessage P;
              role := assistant; timestamp := now (env (store w)) |}]
  /\ last (log (env (store w3)))
     = Some (request (fetch_create_interview (topic P) (sessionType P) (notes P))).
Proof.
  intros Hfail. cbn zeta.
  unfold step, exec, setupAudioRecording. cbn [run].
  destruct w as [[rs e] ps]. cbn [store pending react env].
  destruct (mediaDevices e) eqn:Hmd; cbn [run store pending];
    rewrite ?settle_last_app; cbn [resume]; rewrite ?Hfail;
    unfold exec, microphoneUnavailable; cbn [run store pending];
    rewrite ?app_nil_r, <- ?app_assoc; cbn [app];
    rewrite ?settle_last_app;
    unfold exec, resume, startInterview; cbn [run store pending];
    cbn; rewrite ?last_snoc;
    (repeat split; try reflexivity);
    unfold turnState; cbn; intros -> -> -> ->; reflexivity.
Qed.

End Session.

(** ** The sample session *)


(** The callback is called inside the [try] block: when it throws on the
    fetched feedback the [catch] block calls it again with the fallback
    feedback, so that one end request calls it twice. *)
Lemma throwing_callback_is_called_twice :
  admissible throwingProps [] (mounted throwingProps 1000 true true) end_once
  = true
  /\ onEnd_calls (log (env (store (steps throwingProps []
                                     (mounted throwingProps 1000 true true)
                                     end_once)))) = 2
  /\ onEnd_calls (log (env (store (steps demoProps [] demoWorld end_once)))) = 1.
Proof. repeat apply conj; vm_compute; reflexivity. Qed.

(** C7 does not hold as stated: in a conversation of nine submissions the
    ninth reply request carries 19 messages, and no request of [sendToAI],
    the only one with a window, is ever made. *)
Lemma long_history_is_sent_whole :
  let w := steps demoProps [] demoWorld long_conversation in
  admissible demoProps [] demoWorld long_conversation = true
  /\ requested_histories (log (env (store w))) = [3; 5; 7; 9; 11; 13; 15; 17; 19]
  /\ windowed_requests (log (env (store w))) = [].
Proof. cbv zeta. repeat apply conj; vm_compute; reflexivity. Qed.

(** C2 does not hold as stated: a recording stopped before the introduction
    is transcribed while the introduction is being spoken, and the
    submission that follows appends a user Message and raises the thinking
    flag. *)
Lemma submission_lands_while_speaking :
  let w := steps demoProps [] demoWorld answer_before_intro in
  let w' := step demoProps [] w (settle 0 (fulfilAll (js "hello") (js "ok"))) in
  admissible demoProps [] demoWorld answer_before_intro = true
  /\ turnState (react (store w)) = AssistantSpeaking
  /\ isSpeaking (react (store w')) = true
  /\ map content (messages (react (store w')))
     = map content (messages (react (store w))) ++ [js "hello"]
  /\ map role (messages (react (store w')))
     = map role (messages (react (store w))) ++ [user]
  /\ isThinking (react (store w)) = false
  /\ isThinking (react (store w')) = true.
Proof. cbv zeta. repeat apply conj; vm_compute; reflexivity. Qed.

(** C3 does not hold as stated: with no live transcript and an empty
    recorded transcription the typed text is not submitted at capture-stop;
    no Message is appended and the text box is cleared. *)
Lemma empty_transcription_drops_typed_text :
  let w := steps demoProps [] demoWorld type_then_record in
  let w' := step demoProps [] w (settle 0 (fulfilAll [] (js "ok"))) in
  admissible demoProps [] demoWorld type_then_record = true
  /\ userInput (react (store w)) = js "typed answer"
  /\ liveTranscript (react (store w)) = []
  /\ messages (react (store w')) = messages (react (store w))
  /\ userInput (react (store w')) = []
  /\ pending w' = [].
Proof. cbv zeta. repeat apply conj; vm_compute; reflexivity. Qed.

(** The ['stop'] listener is the one of the render in which Connect was
    clicked, so the [handleSendMessage] it reaches sees the live transcript
    of that render, which is empty: here the recognizer has delivered
    "live words", and the recorded transcription is what is submitted. *)
Lemma stop_listener_sees_connect_render :
  let w := steps demoProps [] demoWorld speak_and_record in
  let w' := step demoProps [] w
              (settle 0 (fulfilAll (js "recorded words") (js "ok"))) in
  liveTranscript (react (store w)) = js "live words"
  /\ map content (messages (react (store w')))
     = map content (messages (react (store w))) ++ [js "recorded words"].
Proof. cbv zeta. split; vm_compute; reflexivity. Qed.

(** The text the handler picks need not be the typed one: a live
    transcript left over from a capture whose recorded transcription came
    back empty is submitted when Enter is pressed in the empty text box. *)
Lemma leftover_live_transcript_is_submitted :
  let w := steps demoProps [] demoWorld enter_after_failed_capture in
  admissible demoProps [] demoWorld enter_after_failed_capture = true
  /\ option_map content (last (messages (react (store w))))
     = Some (js "live words").
Proof. cbv zeta. split; vm_compute; reflexivity. Qed.

(** C4 does not hold as stated: after a failed reply the turn is Idle at
    once; the apology is appended but never spoken, and nothing is pending
    that could start speech. *)
Lemma failed_reply_is_not_narrated :
  let w := steps demoProps [] demoWorld type_and_submit in
  let w' := step demoProps [] w (settle 0 rejectAll) in
  admissible demoProps [] demoWorld type_and_submit = true
  /\ turnState (react (store w)) = AwaitingReply
  /\ turnState (react (store w')) = Idle
  /\ isSpeaking (react (store w')) = false
  /\ option_map content (last (messages (react (store w'))))
     = Some (js "I'm sorry, I'm having trouble responding right now. Let's continue our conversation.")
  /\ spoken (log (env (store w'))) = [introMessage demoProps]
  /\ pending w' = [].
Proof. cbv zeta. repeat apply conj; vm_compute; reflexivity. Qed.

(** C8 does not hold as stated: create-session answers without an id, and
    the user message, the reply and the feedback are all saved under the
    local id. *)
Lemma saves_use_local_id :
  let w := steps demoProps [] demoWorld (talk_then_end ++ [settle 0 allGood]) in
  admissible demoProps [] demoWorld talk_then_end = true
  /\ (forall a b c, allGood (fetch_create_interview a b c) = Some None)
  /\ now (env (store demoWorld)) = 1000%N
  /\ save_ids (log (env (store w))) = [js "1000"; js "1000"; js "1000"].
Proof. cbv zeta. repeat apply conj; vm_compute; reflexivity. Qed.

(** The theorems at work on the sample session. *)


Lemma speaking_blocks_capture_witness :
  let r := react (store (steps demoProps [] demoWorld answer_before_intro)) in
  isSpeaking r = true
  /\ run (startListening r) (store idleWorld) = (store idleWorld, [])
  /\ offered r clickMic = false
  /\ offered r pressEnter = false.
Proof.
  cbv zeta.
  destruct (speaking_blocks_capture
              (react (store (steps demoProps [] demoWorld answer_before_intro)))
              (store idleWorld) [] ltac:(vm_compute; reflexivity))
    as (_ & _ & _ & Hrun & Hmic & Henter & _).
  split; [vm_compute; reflexivity|].
  split; [apply Hrun; eexists; vm_compute; reflexivity|].
  split; assumption.
Defined.

Lemma reply_failure_recovers_witness :
  let r := react (store (typedWorld (js "hi"))) in
  let w1 := exec (handleSendMessage demoProps [] r None) (typedWorld (js "hi")) in
  let w2 := settle_last demoProps [] rejectAll w1 in
  trim (textToSend r None) <> []
  /\ turnState (react (store w1)) = AwaitingReply
  /\ turnState (react (store w2)) = Idle
  /\ pending w2 = pending (typedWorld (js "hi")).
Proof.
  cbv zeta.
  assert (Hne : trim (textToSend (react (store (typedWorld (js "hi")))) None) <> [])
    by (vm_compute; discriminate).
  destruct (reply_failure_recovers demoProps []
              (react (store (typedWorld (js "hi")))) None
              (typedWorld (js "hi")) rejectAll Hne (fun _ _ _ => eq_refl))
    as (_ & _ & _ & _ & _ & _ & _ & Hp & Hturn).
  destruct (Hturn ltac:(vm_compute; reflexivity)) as [H1 H2].
  repeat apply conj; assumption.
Defined.

Lemma feedback_failure_reports_fallback_witness :
  isEndingInterview (react (store idleWorld)) = false
  /\ let w1 := step demoProps [] idleWorld clickEnd in
     let w3 := settle_last demoProps [] rejectAll w1 in
     let w4 := match session_id (store w3) with
               | Some _ => settle_last demoProps [] rejectAll w3
               | None => w3
               end in
     last (log (env (store w4))) = Some (onEnd (fallbackFeedback demoProps))
     /\ onEnd_calls (log (env (store w4)))
        = S (onEnd_calls (log (env (store idleWorld)))).
Proof.
  split; [vm_compute; reflexivity|].
  destruct (feedback_failure_reports_fallback demoProps [] idleWorld
              rejectAll rejectAll ltac:(vm_compute; reflexivity)
              (fun _ _ _ => eq_refl))
    as (Hlast & Hcalls & _).
  split; assumption.
Defined.

Lemma handleSendMessage_blank_noop_witness :
  let w := typedWorld (js "   ") in
  Forall (fun c => isWhiteSpace c = true) (textToSend (react (store w)) None)
  /\ exec (handleSendMessage demoProps [] (react (store w)) None) w = w.
Proof.
  cbv zeta.
  assert (Hblank : Forall (fun c => isWhiteSpace c = true)
                     (textToSend (react (store (typedWorld (js "   ")))) None))
    by (vm_compute; repeat constructor).
  split; [exact Hblank|].
  exact (proj2 (handleSendMessage_blank_noop demoProps []
                  (react (store (typedWorld (js "   ")))) None
                  (store (typedWorld (js "   "))) (typedWorld (js "   "))
                  Hblank)).
Defined.

Lemma local_id_keeps_saves_witness :
  let r := react (store (typedWorld (js "hi"))) in
  let w1 := settle_last demoProps [] allGood (exec (startInterview demoProps) demoWorld) in
  trim (textToSend r None) <> []
  /\ session_id (store w1) = Some (js "1000")
  /\ save_ids (log (env (fst (run (handleSendMessage demoProps [] r None) (store w1)))))
     = [js "1000"].
Proof.
  cbv zeta.
  assert (Hne : trim (textToSend (react (store (typedWorld (js "hi")))) None) <> [])
    by (vm_compute; discriminate).
  destruct (local_id_keeps_saves demoProps [] demoWorld allGood
              (react (store (typedWorld (js "hi")))) None
              (fallbackFeedback demoProps)
              (fun _ _ _ => or_intror (or_introl eq_refl)) Hne)
    as (Hid & Hsave & _).
  split; [exact Hne|]. split; [exact Hid|]. exact Hsave.
Defined.

Lemma microphone_failure_still_connects_witness :
  rejectAll getUserMedia = None
  /\ let w2 := settle_last demoProps [] rejectAll
                 (step demoProps [] demoWorld clickConnect) in
     let w3 := settle_last demoProps [] allGood w2 in
     isConnected (react (store w2)) = true
     /\ audioRecorder (react (store w2)) = None
     /\ turnState (react (store w2)) = Idle
     /\ map content (messages (react (store w3)))
        = [welcomeMessage demoProps; introMessage demoProps].
Proof.
  split; [reflexivity|]. cbv zeta.
  destruct (microphone_failure_still_connects demoProps [] demoWorld
              rejectAll allGood eq_refl)
    as (Hc & Ha & _ & _ & _ & Hturn & Hm & _).
  split; [exact Hc|]. split; [exact Ha|].
  split; [apply Hturn; reflexivity|].
  cbv zeta in Hm.
  change (if mediaDevices (env (store demoWorld)) then _ else _)
    with (settle_last demoProps [] rejectAll
            (step demoProps [] demoWorld clickConnect)) in Hm.
  rewrite Hm. reflexivity.
Defined.

Lemma handleSendMessage_appends_trimmed_witness :
  let w := typedWorld (js "  hi ") in
  let r := react (store w) in
  trim (textToSend r None) <> []
  /\ exists m,
       messages (react (fst (run (handleSendMessage demoProps [] r None) (store w))))
       = messages (react (store w)) ++ [m]
       /\ role m = user
       /\ content m = js "hi".
Proof.
  cbv zeta.
  assert (Hne : trim (textToSend (react (store (typedWorld (js "  hi ")))) None) <> [])
    by (vm_compute; discriminate).
  split; [exact Hne|].
  destruct (handleSendMessage_appends_trimmed demoProps []
              (react (store (typedWorld (js "  hi ")))) None
              (store (typedWorld (js "  hi "))) Hne)
    as (m & Hm & Hr & Hc & _).
  exists m. split; [exact Hm|]. split; [exact Hr|].
  rewrite Hc. vm_compute. reflexivity.
Defined.

(** ** Relations along the event loop *)

Lemma step_handler_of (P : Props) (ctx : jsstring) (w : World) (e : Event) :
  (forall i o, e <> settle i o) ->
  step P ctx w e = exec (handler_of P ctx (react (store w)) e) w.
Proof.
  intros Hns. destruct e; try reflexivity.
  exfalso. eapply Hns. reflexivity.
Qed.

Section KeepsLoop.

Variable R : Store -> Store -> Prop.
Hypothesis R_refl : forall s, R s s.
Hypothesis R_trans : forall s1 s2 s3, R s1 s2 -> R s2 s3 -> R s1 s3.
Hypothesis R_request : forall c s, R s (emit (request c) s).

Lemma run_keeps (p : Proc) :
  keeps R p ->
  forall s, R s (fst (run p s)) /\ Forall (keeps_pending R) (snd (run p s)).
Proof.
  induction 1 as [|f k Hf Hk IH|k Hk IH|c k Hk IH|cb k Hcb IHcb Hk IH];
    intros s; cbn [run].
  - split; [apply R_refl | constructor].
  - destruct (IH (f s)) as [H1 H2].
    split; [exact (R_trans _ _ _ (Hf s) H1) | exact H2].
  - apply IH.
  - split; [apply R_request|].
    constructor; [|constructor]. intros o. apply Hk.
  - destruct (IH s) as [H1 H2]. destruct (run k s) as [s' ps]. cbn in *.
    split; [exact H1|]. constructor; [|exact H2]. intros o. exact Hcb.
Qed.

Lemma exec_keeps (p : Proc) (w : World) :
  keeps R p -> Forall (keeps_pending R) (pending w) ->
  R (store w) (store (exec p w))
  /\ Forall (keeps_pending R) (pending (exec p w)).
Proof.
  intros Hp Hw. unfold exec.
  destruct (run_keeps p Hp (store w)) as [H1 H2].
  destruct (run p (store w)) as [s' ps]. cbn in *.
  split; [exact H1|]. apply Forall_app. split; assumption.
Qed.

Variable P : Props.
Variable ctx : jsstring.
Variable allowed : Render -> Event -> bool.
Hypothesis handlers_keep :
  forall r e, allowed r e = true -> keeps R (handler_of P ctx r e).

Lemma step_keeps (w : World) (e : Event) :
  allowed (react (store w)) e = true ->
  Forall (keeps_pending R) (pending w) ->
  R (store w) (store (step P ctx w e))
  /\ Forall (keeps_pending R) (pending (step P ctx w e)).
Proof.
  intros Hal Hw.
  assert (Hother : (forall i o, e <> settle i o) ->
            R (store w) (store (step P ctx w e))
            /\ Forall (keeps_pending R) (pending (step P ctx w e))).
  { intros Hns. rewrite (step_handler_of P ctx w e Hns).
    apply exec_keeps; [apply handlers_keep; exact Hal | exact Hw]. }
  destruct e; try (apply Hother; discriminate).
  cbn [step]. destruct (pending w !! i) as [x|] eqn:Hx.
  - apply (exec_keeps (resume x o)
             {| store := store w; pending := delete i (pending w) |}).
    + exact (proj1 (Forall_lookup _ _) Hw i x Hx o).
    + cbn. apply Forall_delete. exact Hw.
  - split; [apply R_refl | exact Hw].
Qed.

Lemma steps_keep (es : list Event) :
  forall w,
    permitted allowed P ctx w es = true ->
    Forall (keeps_pending R) (pending w) ->
    R (store w) (store (steps P ctx w es))
    /\ Forall (keeps_pending R) (pending (steps P ctx w es)).
Proof.
  induction es as [|e es IH]; intros w Hper Hw.
  - split; [apply R_refl | exact Hw].
  - cbn [permitted] in Hper. apply andb_true_iff in Hper as [Hal Hper].
    destruct (step_keeps w e Hal Hw) as [H1 H2].
    destruct (IH (step P ctx w e) Hper H2) as [H3 H4].
    unfold steps in *. cbn [fold_left].
    split; [exact (R_trans _ _ _ H1 H3) | exact H4].
Qed.

End KeepsLoop.

Lemma permitted_all (P : Props) (ctx : jsstring) (es : list Event) :
  forall w, permitted (fun _ _ => true) P ctx w es = true.
Proof. induction es as [|e es IH]; intros w; cbn; [reflexivity | apply IH]. Qed.

Lemma permitted_offered (P : Props) (ctx : jsstring) (es : list Event) :
  forall w, permitted offered P ctx w es = admissible P ctx w es.
Proof.
  induction es as [|e es IH]; intros w; cbn; [reflexivity|].
  rewrite IH. reflexivity.
Qed.

Lemma steps_app (P : Props) (ctx : jsstring) (w : World) (es1 es2 : list Event) :
  steps P ctx w (es1 ++ es2) = steps P ctx (steps P ctx w es1) es2.
Proof. unfold steps. apply fold_left_app. Qed.

(** ** What every handler keeps *)

Create HintDb handlers.

#[local] Hint Unfold handler_of setupAudioRecording microphoneUnavailable
  startInterview speakIntroduction handleKeyPress handleSendMessage afterReply
  replyArrived replyFailed narrate playAudioResponse handleRecordingStop
  afterTranscription stopRecorder startListening stopListening stopSpeaking
  handleEndInterview afterFeedback reportFetched callOnEnd reportFeedback
  finishEnd onresult
  utterance_onend cancelSpeech speakUtterance testVoice : handlers.

(** Walk through a handler, leaving to [side] the synchronous actions. *)
Ltac keeps_walk side :=
  repeat first
    [ progress autounfold with handlers
    | progress cbv beta zeta
    | apply keeps_Done
    | apply keeps_Sync; [ side | ]
    | apply keeps_Read; intros ?
    | apply keeps_Await; intros ?
    | apply keeps_Later
    | match goal with
      | |- keeps _ (if ?b then _ else _) => destruct b eqn:?
      | |- keeps _ (match ?x with _ => _ end) => destruct x eqn:?
      end ].

Ltac open_action :=
  intros ?; unfold saveMessage;
  repeat match goal with
         | |- context [match ?x with _ => _ end] => destruct x
         end.

Ltac grows_side :=
  open_action; unfold grows; cbn;
  first [ reflexivity | apply prefix_app_r; reflexivity ].

Lemma handlers_grow (P : Props) (ctx : jsstring) (r : Render) (e : Event) :
  keeps grows (handler_of P ctx r e).
Proof. destruct e; keeps_walk grows_side. Qed.

Ltac connected_side :=
  open_action; unfold stays_connected; cbn; auto.

Lemma handlers_stay_connected (P : Props) (ctx : jsstring) (r : Render)
    (e : Event) :
  keeps stays_connected (handler_of P ctx r e).
Proof. destruct e; keeps_walk connected_side. Qed.

Lemma trim_clean (s : jsstring) : truthy (trim s) = true -> clean (trim s).
Proof.
  intros H. apply truthy_nonempty in H. split; [exact H|]. split.
  - intros x Hx. destruct (trim s) as [|a l] eqn:E; [discriminate|].
    injection Hx as <-. exact (trim_head _ _ _ E).
  - intros x Hx. exact (trim_last _ _ Hx).
Qed.

Ltac clean_side :=
  open_action; unfold preserves, user_messages_clean; cbn;
  first
    [ exact (fun H => H)
    | intros H; apply Forall_app; split; [exact H|];
      constructor; [|constructor]; cbn;
      first [ discriminate
            | intros _; apply trim_clean; apply negb_false_iff; assumption ] ].

Lemma handlers_keep_clean (P : Props) (ctx : jsstring) (r : Render) (e : Event) :
  keeps (preserves user_messages_clean) (handler_of P ctx r e).
Proof. destruct e; keeps_walk clean_side. Qed.

Ltac session_side :=
  open_action; unfold session_kept, session_usable, session_id; cbn;
  rewrite ?toString_truthy;
  repeat match goal with H : truthy _ = true |- _ => rewrite H end;
  split; eauto.

Lemma handlers_keep_session (P : Props) (ctx : jsstring) (r : Render)
    (e : Event) :
  keeps session_kept (handler_of P ctx r e).
Proof. destruct e; keeps_walk session_side. Qed.

Lemma listeners_fixed_set_recording (ref : nat) (b : bool) (s : Store) :
  listeners_fixed s (set_recording ref b s).
Proof.
  unfold listeners_fixed, set_recording, set_recorders. cbn.
  intros i m Hm.
  destruct (recorders (env s) !! ref) as [m0|] eqn:E; [|eauto].
  destruct (decide (i = ref)) as [->|Hne].
  - rewrite list_lookup_insert_eq by (eapply lookup_lt_Some; eassumption).
    eexists. split; [reflexivity|]. cbn. congruence.
  - rewrite list_lookup_insert_ne by congruence. eauto.
Qed.

Lemma listeners_fixed_new (x : MediaRecorder) (s : Store) :
  listeners_fixed s (set_recorders (fun h => h ++ [x]) s).
Proof.
  unfold listeners_fixed, set_recorders. cbn. intros i m Hm.
  exists m. split; [|reflexivity]. apply lookup_app_l_Some. exact Hm.
Qed.

Ltac listeners_side :=
  first
    [ intros ?; apply listeners_fixed_set_recording
    | intros ?; apply listeners_fixed_new
    | open_action; unfold listeners_fixed; cbn; eauto ].

Lemma handlers_fix_listeners (P : Props) (ctx : jsstring) (r : Render)
    (e : Event) :
  keeps listeners_fixed (handler_of P ctx r e).
Proof. destruct e; keeps_walk listeners_side. Qed.

Lemma listeners_disconnected_set_recording (ref : nat) (b : bool) (s : Store) :
  listeners_disconnected s -> listeners_disconnected (set_recording ref b s).
Proof.
  unfold listeners_disconnected, set_recording, set_recorders. cbn.
  intros H. destruct (recorders (env s) !! ref) as [m0|] eqn:E; [|exact H].
  apply Forall_insert; [exact H|]. cbn.
  exact (proj1 (Forall_lookup _ _) H ref m0 E).
Qed.

Ltac disconnected_side :=
  first
    [ intros ?; unfold preserves; apply listeners_disconnected_set_recording
    | open_action; unfold preserves, listeners_disconnected; cbn;
      first [ exact (fun H => H)
            | intros H; apply Forall_app; split; [exact H|];
              constructor; [assumption | constructor] ] ].

Lemma handlers_keep_listeners_disconnected (P : Props) (ctx : jsstring)
    (r : Render) (e : Event) :
  offered r e = true ->
  keeps (preserves listeners_disconnected) (handler_of P ctx r e).
Proof.
  intros Hoff. destruct e; cbn in Hoff;
    try (apply negb_true_iff in Hoff); keeps_walk disconnected_side.
Qed.

(** ** Whole sessions *)

Lemma permitted_app (allowed : Render -> Event -> bool) (P : Props)
    (ctx : jsstring) (es1 es2 : list Event) :
  forall w,
    permitted allowed P ctx w (es1 ++ es2)
    = permitted allowed P ctx w es1
      && permitted allowed P ctx (steps P ctx w es1) es2.
Proof.
  induction es1 as [|e es1 IH]; intros w; cbn; [reflexivity|].
  rewrite IH, andb_assoc. reflexivity.
Qed.

(** A relation kept by every permitted handler holds between any two points
    of a session that starts at mount. *)
Lemma session_keeps (R : Store -> Store -> Prop)
    (allowed : Render -> Event -> bool) (P : Props) (ctx : jsstring) :
  (forall s, R s s) ->
  (forall s1 s2 s3, R s1 s2 -> R s2 s3 -> R s1 s3) ->
  (forall c s, R s (emit (request c) s)) ->
  (forall r e, allowed r e = true -> keeps R (handler_of P ctx r e)) ->
  forall t md rc es1 es2,
    permitted allowed P ctx (mounted P t md rc) (es1 ++ es2) = true ->
    R (store (steps P ctx (mounted P t md rc) es1))
      (store (steps P ctx (mounted P t md rc) (es1 ++ es2))).
Proof.
  intros Hrefl Htrans Hreq Hh t md rc es1 es2 Hper.
  rewrite permitted_app in Hper. apply andb_true_iff in Hper as [H1 H2].
  rewrite steps_app.
  destruct (steps_keep R Hrefl Htrans Hreq P ctx allowed Hh es1
              (mounted P t md rc) H1 (Forall_nil_2 _)) as [_ Hpend].
  exact (proj1 (steps_keep R Hrefl Htrans Hreq P ctx allowed Hh es2 _ H2 Hpend)).
Qed.

(** X1: whatever happens in a session, the conversation is only ever
    appended to: the Messages at one point are a prefix of the Messages at
    any later point. *)
Theorem conversation_only_grows (P : Props) (ctx : jsstring) (t : N)
    (md rc : bool) (es1 es2 : list Event) :
  messages (react (store (steps P ctx (mounted P t md rc) es1)))
  `prefix_of`
  messages (react (store (steps P ctx (mounted P t md rc) (es1 ++ es2)))).
Proof.
  apply (session_keeps grows (fun _ _ => true) P ctx).
  - intros s. unfold grows. reflexivity.
  - intros s1 s2 s3 H1 H2. unfold grows in *. etransitivity; eassumption.
  - intros c s. unfold grows. reflexivity.
  - intros r e _. apply handlers_grow.
  - apply permitted_all.
Qed.

(** X2: no handler ever disconnects: once [isConnected] is set it stays set
    for the rest of the session. *)
Theorem connection_is_never_dropped (P : Props) (ctx : jsstring) (t : N)
    (md rc : bool) (es1 es2 : list Event) :
  isConnected (react (store (steps P ctx (mounted P t md rc) es1))) = true ->
  isConnected (react (store (steps P ctx (mounted P t md rc) (es1 ++ es2)))) = true.
Proof.
  apply (session_keeps stays_connected (fun _ _ => true) P ctx).
  - intros s H. exact H.
  - intros s1 s2 s3 H1 H2 H. exact (H2 (H1 H)).
  - intros c s H. exact H.
  - intros r e _. apply handlers_stay_connected.
  - apply permitted_all.
Qed.

(** X3: at every point of a session every user Message of the conversation
    has a content that is not empty and neither starts nor ends with white
    space. *)
Theorem user_messages_always_clean (P : Props) (ctx : jsstring) (t : N)
    (md rc : bool) (es : list Event) :
  user_messages_clean (store (steps P ctx (mounted P t md rc) es)).
Proof.
  refine (session_keeps (preserves user_messages_clean) (fun _ _ => true) P ctx
            _ _ _ _ t md rc [] es _ _).
  - intros s H. exact H.
  - intros s1 s2 s3 H1 H2 H. exact (H2 (H1 H)).
  - intros c s H. exact H.
  - intros r e _. apply handlers_keep_clean.
  - apply permitted_all.
  - unfold user_messages_clean. cbn. constructor; [discriminate | constructor].
Qed.

Lemma handleSendMessage_saves (P : Props) (ctx : jsstring) (r : Render)
    (t : option jsstring) (s : Store) (i : jsstring) :
  session_id s = Some i ->
  trim (textToSend r t) <> [] ->
  save_ids (log (env (fst (run (handleSendMessage P ctx r t) s))))
  = save_ids (log (env s)) ++ [i].
Proof.
  intros Hi Hne. rewrite (handleSendMessage_accepted P ctx r t s Hne).
  cbn [fst]. rewrite Hi. cbn. rewrite !save_ids_snoc, app_nil_r. reflexivity.
Qed.

(** X4: once a session record has been stored it stays stored with a truthy
    id, so from then on no submission skips its save-message call. *)
Theorem stored_session_keeps_saving (P : Props) (ctx : jsstring) (t : N)
    (md rc : bool) (es1 es2 : list Event) (r : Render) (tr : option jsstring) :
  is_Some (interviewSession (env (store (steps P ctx (mounted P t md rc) es1)))) ->
  trim (textToSend r tr) <> [] ->
  let s := store (steps P ctx (mounted P t md rc) (es1 ++ es2)) in
  exists i,
    session_id s = Some i
    /\ save_ids (log (env (fst (run (handleSendMessage P ctx r tr) s))))
       = save_ids (log (env s)) ++ [i].
Proof.
  intros Hstored Hne s.
  assert (Hk : forall a b, session_kept
                 (store (steps P ctx (mounted P t md rc) a))
                 (store (steps P ctx (mounted P t md rc) (a ++ b)))).
  { intros a b. apply (session_keeps session_kept (fun _ _ => true) P ctx).
    - intros s0. split; auto.
    - intros s1 s2 s3 [H1 H2] [H3 H4]. split; auto.
    - intros c s0. split; auto.
    - intros r0 e _. apply handlers_keep_session.
    - apply permitted_all. }
  assert (Hus : session_usable s).
  { apply (proj2 (Hk [] (es1 ++ es2))). intros [x Hx]. discriminate. }
  destruct (Hus (proj1 (Hk es1 es2) Hstored)) as [i Hi].
  exists i. split; [exact Hi|].
  exact (handleSendMessage_saves P ctx r tr s i Hi Hne).
Qed.

(** X5: a recorder, once created, keeps the ['stop'] listener it was given:
    no later event replaces the render that listener closes over. *)
Theorem stop_listener_is_never_rebound (P : Props) (ctx : jsstring) (t : N)
    (md rc : bool) (es1 es2 : list Event) (ref : nat) (m : MediaRecorder) :
  recorders (env (store (steps P ctx (mounted P t md rc) es1))) !! ref = Some m ->
  exists m',
    recorders (env (store (steps P ctx (mounted P t md rc) (es1 ++ es2)))) !! ref
    = Some m'
    /\ onstop m' = onstop m.
Proof.
  apply (session_keeps listeners_fixed (fun _ _ => true) P ctx).
  - intros s i x Hx. eauto.
  - intros s1 s2 s3 H1 H2 i x Hx.
    destruct (H1 i x Hx) as (x' & Hx' & E1).
    destruct (H2 i x' Hx') as (x'' & Hx'' & E2).
    exists x''. split; [exact Hx'' | congruence].
  - intros c s i x Hx. eauto.
  - intros r e _. apply handlers_fix_listeners.
  - apply permitted_all.
Qed.

(** X6: in a session driven through the page every ['stop'] listener closes
    over a render that was not connected, so the reply to a recorded answer
    is never spoken: the narration timer it sets speaks nothing, leaves the
    speaking flag alone and leaves nothing pending. *)
Theorem recorded_answer_reply_is_not_spoken (P : Props) (ctx : jsstring)
    (t : N) (md rc : bool) (es : list Event) (ref : nat) (m : MediaRecorder)
    (text : jsstring) (s : Store) :
  admissible P ctx (mounted P t md rc) es = true ->
  recorders (env (store (steps P ctx (mounted P t md rc) es))) !! ref = Some m ->
  isConnected (onstop m) = false
  /\ spoken (log (env (fst (run (narrate (onstop m) text) s))))
     = spoken (log (env s))
  /\ isSpeaking (react (fst (run (narrate (onstop m) text) s)))
     = isSpeaking (react s)
  /\ snd (run (narrate (onstop m) text) s) = [].
Proof.
  intros Hadm Hm.
  assert (Hall : listeners_disconnected (store (steps P ctx (mounted P t md rc) es))).
  { refine (session_keeps (preserves listeners_disconnected) offered P ctx
              _ _ _ _ t md rc [] es _ _).
    - intros s0 H. exact H.
    - intros s1 s2 s3 H1 H2 H. exact (H2 (H1 H)).
    - intros c s0 H. exact H.
    - intros r e Hoff. apply handlers_keep_listeners_disconnected. exact Hoff.
    - cbn [app]. rewrite permitted_offered. exact Hadm.
    - constructor. }
  pose proof (proj1 (Forall_lookup _ _) Hall ref m Hm) as Hdis.
  cbn beta in Hdis. split; [exact Hdis|].
  unfold narrate, playAudioResponse. rewrite Hdis, orb_true_r. cbn [run negb].
  destruct (speaking (env s)); cbn; rewrite ?spoken_snoc, ?app_nil_r;
    repeat split; reflexivity.
Qed.

(** ** Turns of the conversation *)

Section Turns.

Variable P : Props.
Variable ctx : jsstring.

Lemma handleSendMessage_exec (r : Render) (t : option jsstring) (w : World) :
  trim (textToSend r t) <> [] ->
  exec (handleSendMessage P ctx r t) w
  = {| store := fst (run (handleSendMessage P ctx r t) (store w));
       pending := pending w
                  ++ [PAwait (generateInterviewResponse
                                (aiMessagesFor r (trim (textToSend r t)))
                                ctx (topic P))
                             (afterReply r (session_id (store w)))] |}.
Proof.
  intros Hne. unfold exec.
  rewrite (handleSendMessage_accepted P ctx r t (store w) Hne). reflexivity.
Qed.

Lemma handleSendMessage_react (r : Render) (t : option jsstring) (s : Store) :
  trim (textToSend r t) <> [] ->
  react (fst (run (handleSendMessage P ctx r t) s))
  = react
      (setIsThinking true
         (setIsLoading true
            (setLiveTranscript []
               (setTranscript []
                  (setUserInput []
                     (setMessages
                        (fun prev =>
                           prev ++ [{| id := toString (now (env s));
                                       content := trim (textToSend r t);
                                       role := user; timestamp := now (env s) |}])
                        s))))))
  /\ now (env (fst (run (handleSendMessage P ctx r t) s))) = now (env s)
  /\ speaking (env (fst (run (handleSendMessage P ctx r t) s))) = speaking (env s).
Proof.
  intros Hne. rewrite (handleSendMessage_accepted P ctx r t s Hne). cbn [fst].
  destruct (session_id s); repeat split; reflexivity.
Qed.

Lemma replyArrived_exec (r : Render) (sid : option jsstring) (reply : jsstring)
    (s : Store) (ps : list Pending) :
  exec (replyArrived r sid reply) {| store := s; pending := ps |}
  = {| store :=
         setIsLoading false
           (setIsThinking false
              (saveMessage sid reply assistant
                 (setMessages
                    (fun prev =>
                       prev ++ [{| id := toString (now (env s)); content := reply;
                                   role := assistant; timestamp := now (env s) |}])
                    s)));
       pending := ps ++ [PTimer (narrate r reply)] |}.
Proof. reflexivity. Qed.

Lemma narrate_exec (r : Render) (text : jsstring) (s : Store)
    (ps : list Pending) :
  truthy text = true -> isConnected r = true ->
  exec (narrate r text) {| store := s; pending := ps |}
  = {| store := emit (request forceVoiceInit) (setIsSpeaking true (hush s));
       pending := ps ++ [PAwait forceVoiceInit (voiceReady text)] |}.
Proof.
  intros Ht Hc. unfold exec, narrate, playAudioResponse, hush.
  rewrite Ht, Hc. cbn [negb orb run store pending].
  destruct (speaking (env s)); reflexivity.
Qed.

Lemma voiceReady_exec (text : jsstring) (v : bool) (s : Store)
    (ps : list Pending) :
  exec (voiceReady text (Some v)) {| store := s; pending := ps |}
  = {| store := set_speaking true
                  (emit (speak text) (set_speaking false (emit speechCancel s)));
       pending := ps |}.
Proof. unfold exec. cbn. rewrite app_nil_r. reflexivity. Qed.

Lemma react_hush (s : Store) : react (hush s) = react s.
Proof. unfold hush. destruct (speaking (env s)); reflexivity. Qed.

(** X7: a successful reply to a submission from a connected render is
    appended once as an assistant Message, the flags are lowered, and the
    reply is spoken: the turn goes AwaitingReply, then Idle with the text
    box offered until the narration timer fires, then AssistantSpeaking
    until the utterance ends, then Idle. *)
Theorem reply_success_is_spoken (r : Render) (t : option jsstring) (w : World)
    (o : Oracle) (reply : jsstring) :
  trim (textToSend r t) <> [] ->
  (forall a b c, o (generateInterviewResponse a b c) = Some reply) ->
  is_Some (o forceVoiceInit) ->
  isConnected r = true ->
  reply <> [] ->
  let w1 := exec (handleSendMessage P ctx r t) w in
  let w2 := settle_last P ctx o w1 in
  let w3 := settle_last P ctx o w2 in
  let w4 := settle_last P ctx o w3 in
  let w5 := step P ctx w4 utteranceEnd in
  messages (react (store w2))
  = messages (react (store w1))
    ++ [{| id := toString (now (env (store w1))); content := reply;
           role := assistant; timestamp := now (env (store w1)) |}]
  /\ isThinking (react (store w2)) = false
  /\ isLoading (react (store w2)) = false
  /\ isSpeaking (react (store w3)) = true
  /\ last (log (env (store w4))) = Some (speak reply)
  /\ messages (react (store w5)) = messages (react (store w2))
  /\ isSpeaking (react (store w5)) = false
  /\ pending w5 = pending w
  /\ (turnState (react (store w)) = Idle ->
      turnState (react (store w1)) = AwaitingReply
      /\ turnState (react (store w2)) = Idle
      /\ offered (react (store w2)) pressEnter = true
      /\ turnState (react (store w3)) = AssistantSpeaking
      /\ turnState (react (store w4)) = AssistantSpeaking
      /\ turnState (react (store w5)) = Idle).
Proof.
  intros Hne Hreply [v Hvoice] Hcon Hreply_ne w1 w2 w3 w4 w5.
  apply truthy_nonempty in Hreply_ne.
  destruct (handleSendMessage_react r t (store w) Hne) as (Hr1 & Hnow1 & _).
  set (s1 := fst (run (handleSendMessage P ctx r t) (store w))) in *.
  assert (E1 : w1 = {| store := s1;
                       pending := pending w
                         ++ [PAwait (generateInterviewResponse
                                       (aiMessagesFor r (trim (textToSend r t)))
                                       ctx (topic P))
                                    (afterReply r (session_id (store w)))] |})
    by exact (handleSendMessage_exec r t w Hne).
  set (s2 := setIsLoading false
               (setIsThinking false
                  (saveMessage (session_id (store w)) reply assistant
                     (setMessages
                        (fun prev =>
                           prev ++ [{| id := toString (now (env s1));
                                       content := reply; role := assistant;
                                       timestamp := now (env s1) |}])
                        s1)))).
  assert (E2 : w2 = {| store := s2;
                       pending := pending w ++ [PTimer (narrate r reply)] |}).
  { unfold w2. rewrite E1, settle_last_app. cbn [resume]. rewrite Hreply.
    apply replyArrived_exec. }
  set (s3 := emit (request forceVoiceInit) (setIsSpeaking true (hush s2))).
  assert (E3 : w3 = {| store := s3;
                       pending := pending w
                         ++ [PAwait forceVoiceInit (voiceReady reply)] |}).
  { unfold w3. rewrite E2, settle_last_app. cbn [resume].
    apply narrate_exec; assumption. }
  set (s4 := set_speaking true
               (emit (speak reply) (set_speaking false (emit speechCancel s3)))).
  assert (E4 : w4 = {| store := s4; pending := pending w |}).
  { unfold w4. rewrite E3, settle_last_app. cbn [resume]. rewrite Hvoice.
    apply voiceReady_exec. }
  assert (E5 : w5 = {| store := setIsSpeaking false (set_speaking false s4);
                       pending := pending w |}).
  { unfold w5. rewrite E4. unfold step, exec. cbn. rewrite app_nil_r.
    reflexivity. }
  assert (R2 : react s2
               = react (setIsLoading false
                          (setIsThinking false
                             (setMessages
                                (fun prev =>
                                   prev ++ [{| id := toString (now (env s1));
                                               content := reply;
                                               role := assistant;
                                               timestamp := now (env s1) |}])
                                s1)))).
  { unfold s2. destruct (session_id (store w)); reflexivity. }
  assert (R3 : react s3 = react (setIsSpeaking true s2)).
  { unfold s3. cbn [react emit on_env setIsSpeaking on_react].
    rewrite react_hush. reflexivity. }
  clearbody w1 w2 w3 w4 w5. subst w1 w2 w3 w4 w5. cbn [store pending].
  split. { rewrite R2. reflexivity. }
  split. { rewrite R2. reflexivity. }
  split. { rewrite R2. reflexivity. }
  split. { rewrite R3. reflexivity. }
  split. { unfold s4. cbn [log env set_speaking emit on_env].
           apply last_snoc. }
  split. { unfold s4. cbn [react set_speaking emit on_env setIsSpeaking on_react messages].
           rewrite R3. reflexivity. }
  split. { reflexivity. }
  split. { reflexivity. }
  intros Hidle.
  assert (T1 : turnState (react s1) = AwaitingReply).
  { rewrite Hr1. unfold turnState in *. cbn.
    destruct (isConnected (react (store w))), (isEndingInterview (react (store w)));
      try discriminate; reflexivity. }
  split; [exact T1|].
  assert (F : isConnected (react s1) = true
              /\ isEndingInterview (react s1) = false
              /\ isListening (react s1) = false).
  { rewrite Hr1. unfold turnState in Hidle. cbn.
    destruct (isConnected (react (store w))), (isEndingInterview (react (store w))),
      (isThinking (react (store w))), (isSpeaking (react (store w))),
      (isListening (react (store w))); try discriminate; repeat split. }
  destruct F as (Fc & Fe & Fl).
  assert (Fs : isSpeaking (react s1) = false).
  { rewrite Hr1. unfold turnState in Hidle. cbn.
    destruct (isConnected (react (store w))), (isEndingInterview (react (store w))),
      (isThinking (react (store w))), (isSpeaking (react (store w)));
      try discriminate; reflexivity. }
  split.
  { rewrite R2. unfold turnState. cbn. rewrite Fc, Fe, Fs, Fl. reflexivity. }
  split.
  { rewrite R2. cbn. rewrite Fc, Fs, Fl. reflexivity. }
  split.
  - rewrite R3. unfold turnState.
    cbn [react setIsSpeaking on_react isConnected
         isEndingInterview isThinking isSpeaking isListening].
    rewrite R2. cbn. rewrite Fc, Fe. reflexivity.
  - split.
    { unfold s4, turnState.
      cbn [react set_speaking emit on_env isConnected isEndingInterview
           isThinking isSpeaking isListening].
      rewrite R3.
      cbn [react setIsSpeaking on_react isConnected
           isEndingInterview isThinking isSpeaking isListening].
      rewrite R2. cbn. rewrite Fc, Fe. reflexivity. }
    unfold s4. unfold turnState.
    cbn [react set_speaking emit on_env setIsSpeaking on_react isConnected
         isEndingInterview isThinking isSpeaking isListening].
    rewrite R3. cbn [react setIsSpeaking on_react isConnected
                     isEndingInterview isThinking isSpeaking isListening].
    rewrite R2. cbn. rewrite Fc, Fe, Fl. reflexivity.
Qed.

End Turns.

(** ** Starting the interview *)

Section Starting.

Variable P : Props.
Variable ctx : jsstring.

(** X8: whatever create-session answers, with an id, without one or not at
    all, the introduction is appended once, the loading flag is lowered
    again, the introduction is spoken and a session id is in store. *)
Theorem introduction_survives_persistence (w : World) (o : Oracle) :
  is_Some (o forceVoiceInit) ->
  let w1 := exec (startInterview P) w in
  let w2 := settle_last P ctx o w1 in
  let w3 := settle_last P ctx o w2 in
  let w4 := settle_last P ctx o w3 in
  messages (react (store w1))
  = messages (react (store w))
    ++ [{| id := toString (now (env (store w))); content := introMessage P;
           role := assistant; timestamp := now (env (store w)) |}]
  /\ isLoading (react (store w1)) = true
  /\ isLoading (react (store w2)) = false
  /\ messages (react (store w4)) = messages (react (store w1))
  /\ isSpeaking (react (store w4)) = true
  /\ last (log (env (store w4))) = Some (speak (introMessage P))
  /\ is_Some (session_id (store w4))
  /\ pending w4 = pending w.
Proof.
  intros [v Hvoice] w1 w2 w3 w4.
  assert (E2 : exists s2,
             w2 = {| store := s2; pending := pending w ++ [PTimer (speakIntroduction P)] |}
             /\ react s2
                = react (setIsLoading false
                           (setMessages
                              (fun prev =>
                                 prev ++ [{| id := toString (now (env (store w)));
                                             content := introMessage P;
                                             role := assistant;
                                             timestamp := now (env (store w)) |}])
                              (store w)))
             /\ is_Some (session_id s2)).
  { unfold w2, w1, exec, startInterview. cbn [run store pending].
    rewrite settle_last_app. cbn [resume].
    destruct (o (fetch_create_interview (topic P) (sessionType P) (notes P)))
      as [[i|]|]; [destruct (truthy i) eqn:Hi|..];
      unfold exec; cbn [run store pending]; rewrite ?app_nil_r;
      (eexists; split; [reflexivity|]; split; [reflexivity|]);
      unfold session_id; cbn; rewrite ?Hi, ?toString_truthy; eexists; reflexivity. }
  destruct E2 as (s2 & E2 & R2 & Hid).
  assert (E4 : w4 = {| store := set_speaking true
                                  (emit (speak (introMessage P))
                                     (setIsSpeaking true
                                        (emit (request forceVoiceInit) s2)));
                       pending := pending w |}).
  { unfold w4, w3. rewrite E2, settle_last_app. cbn [resume].
    unfold exec, speakIntroduction. cbn [run store pending].
    rewrite settle_last_app. cbn [resume]. rewrite Hvoice.
    unfold exec. cbn. rewrite app_nil_r. reflexivity. }
  split. { reflexivity. }
  split. { reflexivity. }
  split. { rewrite E2. cbn [store]. rewrite R2. reflexivity. }
  split. { rewrite E4. cbn [store react set_speaking emit on_env setIsSpeaking
                            on_react messages].
           rewrite R2. reflexivity. }
  split. { rewrite E4. reflexivity. }
  split. { rewrite E4. cbn [store log env set_speaking emit on_env].
           apply last_snoc. }
  split. { rewrite E4. exact Hid. }
  rewrite E4. reflexivity.
Qed.

(** X9: when create-session answers with an id, that id replaces the local
    one in the stored session, and a later submission is saved under it. *)
Theorem server_id_is_used_for_saves (w : World) (o : Oracle) (i : jsstring)
    (r : Render) (t : option jsstring) :
  (forall a b c, o (fetch_create_interview a b c) = Some (Some i)) ->
  i <> [] ->
  trim (textToSend r t) <> [] ->
  let w1 := settle_last P ctx o (exec (startInterview P) w) in
  session_id (store w1) = Some i
  /\ save_ids (log (env (fst (run (handleSendMessage P ctx r t) (store w1)))))
     = save_ids (log (env (store w))) ++ [i].
Proof.
  intros Hans Hi Hne w1. apply truthy_nonempty in Hi.
  assert (H1 : session_id (store w1) = Some i
               /\ save_ids (log (env (store w1))) = save_ids (log (env (store w)))).
  { unfold w1, exec, startInterview. cbn [run store pending].
    rewrite settle_last_app. cbn [resume]. rewrite Hans, Hi.
    unfold exec. cbn [run store]. unfold session_id. cbn.
    rewrite Hi, save_ids_snoc, app_nil_r. split; reflexivity. }
  destruct H1 as [Hid Hlog]. split; [exact Hid|].
  rewrite (handleSendMessage_saves P ctx r t (store w1) i Hid Hne), Hlog.
  reflexivity.
Qed.

End Starting.

(** ** Microphone, capture and speech *)

Section Devices.

Variable P : Props.
Variable ctx : jsstring.

(** X10: when the microphone is granted, connecting creates one recorder,
    idle, whose ['stop'] listener belongs to the render in which Connect was
    clicked; the session is connected without any alert and the
    introduction is scheduled. *)
Theorem microphone_success_connects (w : World) (o : Oracle) :
  mediaDevices (env (store w)) = true ->
  is_Some (o getUserMedia) ->
  let w2 := settle_last P ctx o (step P ctx w clickConnect) in
  isConnected (react (store w2)) = true
  /\ audioRecorder (react (store w2)) = Some (length (recorders (env (store w))))
  /\ recorders (env (store w2))
     = recorders (env (store w))
       ++ [{| recording := false; onstop := react (store w) |}]
  /\ messages (react (store w2)) = messages (react (store w))
  /\ log (env (store w2)) = log (env (store w)) ++ [request getUserMedia]
  /\ pending w2 = pending w ++ [PTimer (startInterview P)].
Proof.
  intros Hmd [v Hv] w2. unfold w2, step, exec, setupAudioRecording.
  cbn [run]. rewrite Hmd. cbn [run store pending].
  rewrite settle_last_app. cbn [resume]. rewrite Hv.
  unfold exec. cbn. repeat split; reflexivity.
Qed.

(** X11: starting a capture and stopping it again: the capture clears both
    transcripts and sets the recorder recording; the stop leaves the
    recorder idle with its listener untouched, queues that listener exactly
    once, and touches neither the conversation nor the typed text. *)
Theorem capture_round_trip (r r' : Render) (ref : nat) (m : MediaRecorder)
    (w : World) :
  audioRecorder r = Some ref ->
  isSpeaking r = false ->
  audioRecorder r' = Some ref ->
  recorders (env (store w)) !! ref = Some m ->
  let w1 := exec (startListening r) w in
  let w2 := exec (stopListening P ctx r') w1 in
  isListening (react (store w1)) = true
  /\ transcript (react (store w1)) = []
  /\ liveTranscript (react (store w1)) = []
  /\ recorders (env (store w1))
     = <[ref := {| recording := true; onstop := onstop m |}]>
         (recorders (env (store w)))
  /\ pending w1 = pending w
  /\ isListening (react (store w2)) = false
  /\ recorders (env (store w2))
     = <[ref := {| recording := false; onstop := onstop m |}]>
         (recorders (env (store w)))
  /\ pending w2 = pending w ++ [PTimer (handleRecordingStop P ctx (onstop m))]
  /\ messages (react (store w2)) = messages (react (store w))
  /\ userInput (react (store w2)) = userInput (react (store w)).
Proof.
  intros Hrec Hsp Hrec' Hm w1 w2.
  assert (Hlt : ref < length (recorders (env (store w))))
    by (eapply lookup_lt_Some; eassumption).
  assert (E1 : exists s1,
             w1 = {| store := s1; pending := pending w |}
             /\ react s1
                = react (setLiveTranscript [] (setTranscript []
                           (setIsListening true (store w))))
             /\ recorders (env s1)
                = <[ref := {| recording := true; onstop := onstop m |}]>
                    (recorders (env (store w)))).
  { unfold w1, exec, startListening. rewrite Hrec, Hsp. cbn [run].
    destruct (recognitionRef _); cbn [run]; rewrite app_nil_r;
      (eexists; split; [reflexivity|]; split; [reflexivity|]);
      unfold set_recording, set_recorders; cbn; rewrite Hm; reflexivity. }
  destruct E1 as (s1 & E1 & R1 & H1).
  assert (E2 : exists s2,
             w2 = {| store := s2;
                     pending := pending w
                                ++ [PTimer (handleRecordingStop P ctx (onstop m))] |}
             /\ react s2 = react (setIsListening false s1)
             /\ recorders (env s2)
                = <[ref := {| recording := false; onstop := onstop m |}]>
                    (recorders (env (store w)))).
  { unfold w2. rewrite E1. unfold exec, stopListening. rewrite Hrec'.
    cbn [run store pending stopRecorder].
    assert (Hs1 : forall f, recorders (env (on_env f s1)) = recorders (f (env s1)))
      by reflexivity.
    destruct (recognitionRef (env s1)); cbn [run];
      [ change (recorders (env (emit recognitionStop s1))) with (recorders (env s1)) | ];
      rewrite H1, list_lookup_insert_eq by exact Hlt;
      cbn [recording run];
      (eexists; split; [reflexivity|]; split; [reflexivity|]);
      unfold set_recording, set_recorders; cbn;
      rewrite H1, list_lookup_insert_eq by exact Hlt;
      cbn; apply list_insert_insert_eq. }
  destruct E2 as (s2 & E2 & R2 & H2).
  rewrite E1, E2. cbn [store pending].
  rewrite R2. cbn [react setIsListening on_react isListening messages userInput].
  rewrite R1.
  repeat split; try reflexivity; assumption.
Qed.



End Devices.

(** ** Texts *)

Lemma trim_parts (s : jsstring) :
  exists ws1 ws2,
    s = ws1 ++ trim s ++ ws2
    /\ Forall (fun c => isWhiteSpace c = true) ws1
    /\ Forall (fun c => isWhiteSpace c = true) ws2.
Proof.
  destruct (trimStart_suffix s) as (ws1 & E1 & H1).
  destruct (trimStart_suffix (rev (trimStart s))) as (ws2 & E2 & H2).
  exists ws1, (rev ws2). split; [|split; [exact H1 | apply Forall_rev; exact H2]].
  unfold trim, trimEnd. rewrite <- rev_app_distr, <- E2, rev_involutive.
  exact E1.
Qed.

(** X14: the content of a submitted Message is the chosen text with white
    space removed at both ends and nothing else: the text is the content
    between two runs of white space. *)
Theorem submitted_text_loses_only_outer_white_space (P : Props) (ctx : jsstring)
    (r : Render) (t : option jsstring) (s : Store) :
  trim (textToSend r t) <> [] ->
  exists m ws1 ws2,
    messages (react (fst (run (handleSendMessage P ctx r t) s)))
    = messages (react s) ++ [m]
    /\ textToSend r t = ws1 ++ content m ++ ws2
    /\ Forall (fun c => isWhiteSpace c = true) ws1
    /\ Forall (fun c => isWhiteSpace c = true) ws2.
Proof.
  intros Hne.
  destruct (trim_parts (textToSend r t)) as (ws1 & ws2 & E & H1 & H2).
  rewrite (handleSendMessage_accepted P ctx r t s Hne). cbn [fst].
  eexists. exists ws1, ws2.
  cbn [react emit on_env on_react setIsThinking].
  rewrite react_saveMessage. cbn.
  split; [reflexivity|]. split; [exact E|]. split; assumption.
Qed.

Lemma mentions_here (t post : jsstring) : mentions t (t ++ post).
Proof. exists [], post. reflexivity. Qed.

Lemma mentions_later (a t l : jsstring) : mentions t l -> mentions t (a ++ l).
Proof.
  intros (pre & post & ->). exists (a ++ pre), post.
  rewrite <- app_assoc. reflexivity.
Qed.

Ltac find_topic :=
  cbn [cat concat];
  repeat match goal with
         | |- mentions ?t (?t ++ _) => apply mentions_here
         | |- mentions _ (_ ++ _) => apply mentions_later
         end.

(** X15: whatever the session type, the session title, the welcome Message
    and the introduction all contain the topic. *)
Theorem topic_is_always_mentioned (P : Props) :
  mentions (topic P) (getSessionTitle P)
  /\ mentions (topic P) (welcomeMessage P)
  /\ mentions (topic P) (introMessage P).
Proof.
  unfold getSessionTitle, welcomeMessage, introMessage.
  split; [|split]; repeat case_bool_decide; find_topic.
Qed.

(** X16: the live transcript is never blanked by a recognition result, and
    final text takes precedence over interim text; nothing but the live
    transcript changes. *)
Theorem recognition_result_never_blanks (results : list (jsstring * bool))
    (s : Store) :
  liveTranscript (react s) <> [] ->
  let s' := fst (run (onresult results) s) in
  let finals := cat (map fst (filter (fun x => snd x = true) results)) in
  liveTranscript (react s') <> []
  /\ (finals <> [] -> liveTranscript (react s') = finals)
  /\ s' = setLiveTranscript (liveTranscript (react s')) s
  /\ snd (run (onresult results) s) = [].
Proof.
  intros Hlive s' finals. subst s'. unfold onresult. fold finals.
  destruct s as [[ms li ui lo th sp co tr ar en lt] e]. cbn in Hlive.
  destruct (truthy finals) eqn:Hf.
  - cbn. apply truthy_nonempty in Hf. repeat split; auto.
  - destruct (truthy (cat (map fst (filter (fun x => snd x = false) results))))
      eqn:Hi; cbn.
    + apply truthy_nonempty in Hi. repeat split; auto.
      intros Hne. apply truthy_nonempty in Hne. congruence.
    + repeat split; auto.
      intros Hne. apply truthy_nonempty in Hne. congruence.
Qed.

Lemma two_digits (n : N) :
  (n < 100)%N ->
  padStart 2 48 (toString n) = [(48 + n / 10)%N; (48 + n mod 10)%N].
Proof.
  intros Hn.
  assert (Hall : forallb
                   (fun k =>
                      bool_decide
                        (padStart 2 48 (toString (N.of_nat k))
                         = [(48 + N.of_nat k / 10)%N; (48 + N.of_nat k mod 10)%N]))
                   (seq 0 100) = true)
    by (vm_compute; reflexivity).
  rewrite forallb_forall in Hall.
  specialize (Hall (N.to_nat n)). rewrite N2Nat.id in Hall.
  eapply bool_decide_eq_true_1. apply Hall. apply in_seq. lia.
Qed.

(** X17: below one hundred minutes the timer display is exactly five code
    units, two digits of minutes, a colon, two digits of seconds, and two
    different times are displayed differently. *)
Theorem formatTime_shape (seconds : N) :
  (seconds < 6000)%N ->
  let m := (seconds / 60)%N in
  let s := (seconds mod 60)%N in
  formatTime seconds
  = [(48 + m / 10)%N; (48 + m mod 10)%N; 58%N; (48 + s / 10)%N; (48 + s mod 10)%N]
  /\ forall other : N,
       (other < 6000)%N -> formatTime other = formatTime seconds ->
       other = seconds.
Proof.
  intros Hlt m s.
  assert (Hshape : forall x : N, (x < 6000)%N ->
            formatTime x
            = [(48 + x / 60 / 10)%N; (48 + (x / 60) mod 10)%N; 58%N;
               (48 + x mod 60 / 10)%N; (48 + (x mod 60) mod 10)%N]).
  { intros x Hx. unfold formatTime. cbn [cat concat].
    rewrite (two_digits (x / 60)), (two_digits (x mod 60)).
    - reflexivity.
    - pose proof (N.mod_upper_bound x 60). lia.
    - apply N.Div0.div_lt_upper_bound. lia. }
  split; [exact (Hshape seconds Hlt)|].
  intros other Ho E. rewrite (Hshape other Ho), (Hshape seconds Hlt) in E.
  injection E as E1 E2 E3 E4.
  pose proof (N.div_mod other 60 ltac:(lia)).
  pose proof (N.div_mod seconds 60 ltac:(lia)).
  pose proof (N.div_mod (other / 60) 10 ltac:(lia)).
  pose proof (N.div_mod (seconds / 60) 10 ltac:(lia)).
  pose proof (N.div_mod (other mod 60) 10 ltac:(lia)).
  pose proof (N.div_mod (seconds mod 60) 10 ltac:(lia)).
  lia.
Qed.

(** X18: once a submission has been accepted the page offers neither the
    text box nor the microphone button until the loading flag is lowered
    again. *)
Theorem input_is_locked_while_awaiting_reply (P : Props) (ctx : jsstring)
    (r : Render) (t : option jsstring) (s : Store) (v : jsstring) :
  trim (textToSend r t) <> [] ->
  let r1 := react (fst (run (handleSendMessage P ctx r t) s)) in
  isLoading r1 = true
  /\ offered r1 pressEnter = false
  /\ offered r1 (typeText v) = false
  /\ offered r1 clickMic = false.
Proof.
  intros Hne r1. subst r1.
  destruct (handleSendMessage_react P ctx r t s Hne) as (-> & _ & _).
  cbn. rewrite !andb_false_r. repeat split.
Qed.

(** ** The sample session, continued *)

Lemma connection_is_never_dropped_witness :
  isConnected (react (store (steps demoProps [] (mounted demoProps 1000 true true)
                               connect_and_listen_to_intro))) = true
  /\ isConnected (react (store (steps demoProps [] (mounted demoProps 1000 true true)
                                  (connect_and_listen_to_intro ++ end_twice)))) = true.
Proof.
  assert (H : isConnected (react (store (steps demoProps []
                (mounted demoProps 1000 true true) connect_and_listen_to_intro))) = true)
    by (vm_compute; reflexivity).
  split; [exact H|].
  exact (connection_is_never_dropped demoProps [] 1000 true true
           connect_and_listen_to_intro end_twice H).
Defined.

Lemma stored_session_keeps_saving_witness :
  let r := react (store (typedWorld (js "hi"))) in
  is_Some (interviewSession (env (store (steps demoProps []
             (mounted demoProps 1000 true true) connect_and_listen_to_intro))))
  /\ trim (textToSend r None) <> []
  /\ exists i,
       session_id (store (steps demoProps [] (mounted demoProps 1000 true true)
                            (connect_and_listen_to_intro ++ [typeText (js "hi")])))
       = Some i.
Proof.
  cbv zeta.
  assert (H1 : is_Some (interviewSession (env (store (steps demoProps []
                 (mounted demoProps 1000 true true) connect_and_listen_to_intro)))))
    by (vm_compute; eexists; reflexivity).
  assert (H2 : trim (textToSend (react (store (typedWorld (js "hi")))) None) <> [])
    by (vm_compute; discriminate).
  split; [exact H1|]. split; [exact H2|].
  destruct (stored_session_keeps_saving demoProps [] 1000 true true
              connect_and_listen_to_intro [typeText (js "hi")]
              (react (store (typedWorld (js "hi")))) None H1 H2)
    as (i & Hi & _).
  exists i. exact Hi.
Defined.

Lemma stop_listener_is_never_rebound_witness :
  let m := {| recording := false; onstop := react (store demoWorld) |} in
  recorders (env (store (steps demoProps [] (mounted demoProps 1000 true true)
                           [clickConnect; settle 0 allGood]))) !! 0 = Some m
  /\ exists m',
       recorders (env (store (steps demoProps [] (mounted demoProps 1000 true true)
                                ([clickConnect; settle 0 allGood]
                                 ++ [clickMic; clickMic])))) !! 0 = Some m'
       /\ onstop m' = onstop m.
Proof.
  cbv zeta.
  assert (H : recorders (env (store (steps demoProps []
                (mounted demoProps 1000 true true)
                [clickConnect; settle 0 allGood]))) !! 0
              = Some {| recording := false; onstop := react (store demoWorld) |})
    by (vm_compute; reflexivity).
  split; [exact H|].
  exact (stop_listener_is_never_rebound demoProps [] 1000 true true
           [clickConnect; settle 0 allGood] [clickMic; clickMic] 0 _ H).
Defined.

Lemma recorded_answer_reply_is_not_spoken_witness :
  let m := {| recording := false; onstop := react (store demoWorld) |} in
  admissible demoProps [] (mounted demoProps 1000 true true) answer_before_intro
  = true
  /\ recorders (env (store (steps demoProps [] (mounted demoProps 1000 true true)
                              answer_before_intro))) !! 0 = Some m
  /\ snd (run (narrate (onstop m) (js "ok")) (store idleWorld)) = [].
Proof.
  cbv zeta.
  assert (H1 : admissible demoProps [] (mounted demoProps 1000 true true)
                 answer_before_intro = true) by (vm_compute; reflexivity).
  assert (H2 : recorders (env (store (steps demoProps []
                 (mounted demoProps 1000 true true) answer_before_intro))) !! 0
               = Some {| recording := false; onstop := react (store demoWorld) |})
    by (vm_compute; reflexivity).
  split; [exact H1|]. split; [exact H2|].
  exact (proj2 (proj2 (proj2
           (recorded_answer_reply_is_not_spoken demoProps [] 1000 true true
              answer_before_intro 0 _ (js "ok") (store idleWorld) H1 H2)))).
Defined.

Lemma reply_success_is_spoken_witness :
  let w := typedWorld (js "hi") in
  let r := react (store w) in
  let w1 := exec (handleSendMessage demoProps [] r None) w in
  let w2 := settle_last demoProps [] allGood w1 in
  let w3 := settle_last demoProps [] allGood w2 in
  trim (textToSend r None) <> []
  /\ isConnected r = true
  /\ turnState (react (store w)) = Idle
  /\ turnState (react (store w1)) = AwaitingReply
  /\ turnState (react (store w2)) = Idle
  /\ turnState (react (store w3)) = AssistantSpeaking.
Proof.
  cbv zeta.
  assert (H1 : trim (textToSend (react (store (typedWorld (js "hi")))) None) <> [])
    by (vm_compute; discriminate).
  assert (H2 : isConnected (react (store (typedWorld (js "hi")))) = true)
    by (vm_compute; reflexivity).
  assert (H3 : turnState (react (store (typedWorld (js "hi")))) = Idle)
    by (vm_compute; reflexivity).
  destruct (reply_success_is_spoken demoProps []
              (react (store (typedWorld (js "hi")))) None (typedWorld (js "hi"))
              allGood (js "Good question.") H1 (fun _ _ _ => eq_refl)
              (ex_intro _ true eq_refl) H2 ltac:(discriminate))
    as (_ & _ & _ & _ & _ & _ & _ & _ & Hturn).
  destruct (Hturn H3) as (T1 & T2 & _ & T3 & _).
  repeat apply conj; assumption.
Defined.

Lemma introduction_survives_persistence_witness :
  let w1 := exec (startInterview demoProps) demoWorld in
  is_Some (allGood forceVoiceInit)
  /\ map content (messages (react (store w1)))
     = [welcomeMessage demoProps; introMessage demoProps].
Proof.
  cbv zeta. split; [eexists; reflexivity|].
  destruct (introduction_survives_persistence demoProps [] demoWorld allGood
              (ex_intro _ true eq_refl))
    as (Hm & _).
  rewrite Hm. reflexivity.
Defined.

Lemma server_id_is_used_for_saves_witness :
  let r := react (store (typedWorld (js "hi"))) in
  let w1 := settle_last demoProps [] (serverGives (js "abc"))
              (exec (startInterview demoProps) demoWorld) in
  js "abc" <> []
  /\ trim (textToSend r None) <> []
  /\ session_id (store w1) = Some (js "abc")
  /\ save_ids (log (env (fst (run (handleSendMessage demoProps [] r None)
                                 (store w1)))))
     = [js "abc"].
Proof.
  cbv zeta.
  assert (H1 : js "abc" <> []) by discriminate.
  assert (H2 : trim (textToSend (react (store (typedWorld (js "hi")))) None) <> [])
    by (vm_compute; discriminate).
  destruct (server_id_is_used_for_saves demoProps [] demoWorld
              (serverGives (js "abc")) (js "abc")
              (react (store (typedWorld (js "hi")))) None
              (fun _ _ _ => eq_refl) H1 H2)
    as (Hid & Hsave).
  repeat apply conj; assumption.
Defined.

Lemma microphone_success_connects_witness :
  mediaDevices (env (store demoWorld)) = true
  /\ is_Some (allGood getUserMedia)
  /\ audioRecorder (react (store grantedWorld)) = Some 0
  /\ recorders (env (store grantedWorld))
     = [{| recording := false; onstop := react (store demoWorld) |}].
Proof.
  destruct (microphone_success_connects demoProps [] demoWorld allGood
              eq_refl (ex_intro _ tt eq_refl))
    as (_ & Ha & Hr & _).
  split; [reflexivity|]. split; [eexists; reflexivity|].
  split; [exact Ha | exact Hr].
Defined.

Lemma capture_round_trip_witness :
  let r := react (store grantedWorld) in
  let m := {| recording := false; onstop := react (store demoWorld) |} in
  let w2 := exec (stopListening demoProps [] r) (exec (startListening r) grantedWorld) in
  audioRecorder r = Some 0
  /\ isSpeaking r = false
  /\ recorders (env (store grantedWorld)) !! 0 = Some m
  /\ length (pending w2) = S (length (pending grantedWorld))
  /\ recorders (env (store w2)) = [m].
Proof.
  cbv zeta.
  assert (H1 : audioRecorder (react (store grantedWorld)) = Some 0)
    by (vm_compute; reflexivity).
  assert (H2 : isSpeaking (react (store grantedWorld)) = false)
    by (vm_compute; reflexivity).
  assert (H3 : recorders (env (store grantedWorld)) !! 0
               = Some {| recording := false; onstop := react (store demoWorld) |})
    by (vm_compute; reflexivity).
  destruct (capture_round_trip demoProps [] (react (store grantedWorld))
              (react (store grantedWorld)) 0 _ grantedWorld H1 H2 H1 H3)
    as (_ & _ & _ & _ & _ & _ & Hrec & Hpend & _).
  split; [exact H1|]. split; [exact H2|]. split; [exact H3|]. split.
  - rewrite Hpend, length_app. cbn. lia.
  - rewrite Hrec. vm_compute. reflexivity.
Defined.



Lemma submitted_text_loses_only_outer_white_space_witness :
  let w := typedWorld (js "  hi ") in
  trim (textToSend (react (store w)) None) <> []
  /\ exists m ws1 ws2,
       messages (react (fst (run (handleSendMessage demoProps []
                                    (react (store w)) None) (store w))))
       = messages (react (store w)) ++ [m]
       /\ js "  hi " = ws1 ++ content m ++ ws2.
Proof.
  cbv zeta.
  assert (Hne : trim (textToSend (react (store (typedWorld (js "  hi ")))) None) <> [])
    by (vm_compute; discriminate).
  split; [exact Hne|].
  destruct (submitted_text_loses_only_outer_white_space demoProps []
              (react (store (typedWorld (js "  hi ")))) None
              (store (typedWorld (js "  hi "))) Hne)
    as (m & ws1 & ws2 & Hm & Ht & _).
  exists m, ws1, ws2. split; [exact Hm | exact Ht].
Defined.

Lemma recognition_result_never_blanks_witness :
  let s := setLiveTranscript (js "old") (store idleWorld) in
  let results := [(js "interim", false); (js "final", true)] in
  liveTranscript (react s) <> []
  /\ liveTranscript (react (fst (run (onresult results) s))) = js "final".
Proof.
  cbv zeta.
  assert (H : liveTranscript (react (setLiveTranscript (js "old") (store idleWorld)))
              <> []) by discriminate.
  split; [exact H|].
  destruct (recognition_result_never_blanks
              [(js "interim", false); (js "final", true)]
              (setLiveTranscript (js "old") (store idleWorld)) H)
    as (_ & Hf & _).
  rewrite Hf; [vm_compute; reflexivity | vm_compute; discriminate].
Defined.

Lemma formatTime_shape_witness :
  (125 < 6000)%N /\ formatTime 125 = js "02:05".
Proof.
  split; [reflexivity|].
  rewrite (proj1 (formatTime_shape 125 eq_refl)). reflexivity.
Defined.

Lemma input_is_locked_while_awaiting_reply_witness :
  let w := typedWorld (js "hi") in
  trim (textToSend (react (store w)) None) <> []
  /\ offered (react (fst (run (handleSendMessage demoProps [] (react (store w)) None)
                            (store w)))) pressEnter = false.
Proof.
  cbv zeta.
  assert (Hne : trim (textToSend (react (store (typedWorld (js "hi")))) None) <> [])
    by (vm_compute; discriminate).
  split; [exact Hne|].
  exact (proj1 (proj2 (input_is_locked_while_awaiting_reply demoProps []
                         (react (store (typedWorld (js "hi")))) None
                         (store (typedWorld (js "hi"))) [] Hne))).
Defined.

Lemma reply_request_history_witness :
  let r := react (store (typedWorld (js "hi"))) in
  trim (textToSend r None) <> []
  /\ requested_histories
       (log (env (fst (run (handleSendMessage demoProps [] r None)
                         (store (typedWorld (js "hi")))))))
     = [3].
Proof.
  cbv zeta.
  assert (Hne : trim (textToSend (react (store (typedWorld (js "hi")))) None) <> [])
    by (vm_compute; discriminate).
  split; [exact Hne|].
  destruct (reply_request_history demoProps [] [] (fun _ => Done)
              (store demoWorld) (react (store (typedWorld (js "hi")))) None
              (store (typedWorld (js "hi"))) Hne)
    as (_ & _ & Hreq & _).
  rewrite Hreq. vm_compute. reflexivity.
Defined.
